(** * Cart and order price reconciliation of the e-commerce dashboard

    A shallow embedding of [cart/cartController.js],
    [order/orderController.js] and the handlers of
    [src/pages/cart/cart.jsx], followed by the properties the design
    document states about them.

    Conventions of the embedding.
    - A numeric document field that may be missing ([price],
      [priceAfterDiscount], [discount]) is an [option Q]: [None] stands for
      [undefined]/[null]; the Mongoose [Number] schema type leaves no other
      value.  JavaScript numbers are read as exact rationals and [==] on
      [Q] is numeric equality; rounding of IEEE-754 doubles is not
      modelled, so the only arithmetic embedded is the sum and the product
      of prices and quantities as the code accumulates them, and a quotient
      is a parameter of the handler that computes it.
    - Strings are [string], arrays are [list], a collection addressed by
      [findById] is a [gmap] from identifiers to documents.
    - A handler is a function from the request and the store to a reply and
      the store it leaves behind. *)

From Stdlib Require Import QArith.
From stdpp Require Import base option list strings gmap sorting.

Local Open Scope Z_scope.
Local Open Scope Q_scope.
Local Open Scope string_scope.
Local Open Scope list_scope.

(** ** JavaScript operators on optional numbers *)

Module Js.

(** [a < b] on numbers, as a boolean. *)
Definition ltb (a b : Q) : bool :=
  (Qnum a * QDen b <? Qnum b * QDen a)%Z.

(** [x === 0] for a number [x]. *)
Definition isZero (x : Q) : bool := Qeq_bool x 0.

(** Truthiness of an optional number: [undefined], [null] and [0] are
    falsy, every other number is truthy. *)
Definition truthy (v : option Q) : bool :=
  match v with
  | Some x => negb (isZero x)
  | None => false
  end.

(** [a || b] where both operands are optional numbers. *)
Definition or (a b : option Q) : option Q :=
  if truthy a then a else b.

(** [a || d] where [d] is a number literal: the result is a number. *)
Definition orNum (a : option Q) (d : Q) : Q :=
  match a with
  | Some x => if isZero x then d else x
  | None => d
  end.

End Js.

(** ** Data model *)

(** An option of a variant group (one concrete SKU). *)
Module Opt.
Record t := mk {
  sku : string;
  value : option string;
  price : option Q;
  priceAfterDiscount : option Q;
  stock : option Z;
  variantImages : option (list string)
}.
End Opt.

(** A variant group; [options] may be missing on a document, which is what
    [variant.options?.find] guards against. *)
Module Variant.
Record t := mk {
  name : string;
  options : option (list Opt.t)
}.
End Variant.

(** A product as populated into a cart item.  [variants] and [images] are
    [None] when the populate call did not select them. *)
Module Product.
Record t := mk {
  _id : string;
  name : string;
  variants : option (list Variant.t);
  images : option (list string)
}.
End Product.

(** A cart line.  [product] is [None] when population found no product
    ([item.product] is [null]). *)
Module CartItem.
Record t := mk {
  _id : string;
  product : option Product.t;
  sku : string;
  quantity : Z;
  price : option Q;
  notes : option string
}.

Definition setPrice (item : t) (p : Q) : t :=
  mk (_id item) (product item) (sku item) (quantity item) (Some p)
     (notes item).
End CartItem.

Module Cart.
Record t := mk {
  _id : string;
  user : string;
  items : list CartItem.t;
  discount : option Q
}.

Definition setItems (cart : t) (its : list CartItem.t) : t :=
  mk (_id cart) (user cart) its (discount cart).
End Cart.

(** ** Variant resolver

    The loop shared by [getAllCartsData], [getAllCarts], [fixCartPrices]
    and [createOrder]:
<<
      let matchedOption = null;
      for (const variant of product?.variants || []) {
        matchedOption = variant.options?.find((opt) => opt.sku === item.sku);
        if (matchedOption) { matchedVariant = variant; break; }
      }
>> *)

Module Resolver.

(** [variant.options?.find((opt) => opt.sku === sku)] *)
Definition findOption (options : option (list Opt.t)) (sku : string)
  : option Opt.t :=
  match options with
  | Some opts => List.find (fun opt => String.eqb (Opt.sku opt) sku) opts
  | None => None
  end.

(** The [for ... of] loop with its [break]: the first variant whose
    options hold the SKU, together with the option found. *)
Fixpoint scan (variants : list Variant.t) (sku : string)
  : option (Variant.t * Opt.t) :=
  match variants with
  | [] => None
  | variant :: rest =>
      match findOption (Variant.options variant) sku with
      | Some matchedOption => Some (variant, matchedOption)
      | None => scan rest sku
      end
  end.

(** [product?.variants || []] *)
Definition variantsOf (product : option Product.t) : list Variant.t :=
  match product with
  | Some p => default [] (Product.variants p)
  | None => []
  end.

(** The pair [(matchedVariant, matchedOption)] left by the loop. *)
Definition resolve (product : option Product.t) (sku : string)
  : option (Variant.t * Opt.t) :=
  scan (variantsOf product) sku.

Definition matchedOption (product : option Product.t) (sku : string)
  : option Opt.t :=
  snd <$> resolve product sku.

(** The design document's wording of the resolver: all options of the
    product, variant groups in stored order and the options of each group
    in stored order, and the first one carrying the SKU. *)
Definition allOptions (product : option Product.t) : list Opt.t :=
  concat (map (fun v => default [] (Variant.options v)) (variantsOf product)).

Definition resolve_spec (product : option Product.t) (sku : string)
  : option Opt.t :=
  List.find (fun opt => String.eqb (Opt.sku opt) sku) (allOptions product).

End Resolver.

(** ** Price reconciler *)

Module Reconciler.

(** [matchedOption.priceAfterDiscount || matchedOption.price || 0] *)
Definition optionPrice (opt : Opt.t) : Q :=
  Js.orNum (Js.or (Opt.priceAfterDiscount opt) (Opt.price opt)) 0.

(** Lines 66-76 of [getAllCartsData] (and the same lines of
    [getAllCarts]): the unit price of the enriched item and whether this
    item raises [needsUpdate].
<<
    let price = item.price || 0;
    if (price === 0 && matchedOption) {
      price = matchedOption.priceAfterDiscount || matchedOption.price || 0;
      if (price > 0) { needsUpdate = true; }
    }
>> *)
Definition reconcile (item : CartItem.t) (matchedOption : option Opt.t)
  : Q * bool :=
  let price := Js.orNum (CartItem.price item) 0 in
  match Js.isZero price, matchedOption with
  | true, Some opt =>
      let price := optionPrice opt in
      (price, Js.ltb 0 price)
  | _, _ => (price, false)
  end.

(** Lines 466-475 of [fixCartPrices]: the item after the repair and
    whether it was counted in [updatedItems].
<<
    if ((item.price === 0 || !item.price) && matchedOption) {
      const newPrice =
        matchedOption.priceAfterDiscount || matchedOption.price || 0;
      if (newPrice > 0) { item.price = newPrice; cartNeedsUpdate = true;
                          updatedItems++; }
    }
>> *)
Definition priceMissing (p : option Q) : bool :=
  match p with
  | Some x => Js.isZero x || negb (Js.truthy (Some x))
  | None => true
  end.

Definition fixItem (item : CartItem.t) (matchedOption : option Opt.t)
  : CartItem.t * bool :=
  match priceMissing (CartItem.price item), matchedOption with
  | true, Some opt =>
      let newPrice := optionPrice opt in
      if Js.ltb 0 newPrice
      then (CartItem.setPrice item newPrice, true)
      else (item, false)
  | _, _ => (item, false)
  end.

(** The design document's wording of the price taken from an option:
    [priceAfterDiscount] if present and truthy, else [price], else [0]. *)
Definition optionPrice_spec (opt : Opt.t) : Q :=
  match Opt.priceAfterDiscount opt with
  | Some d => if Qeq_bool d 0
              then match Opt.price opt with
                   | Some p => if Qeq_bool p 0 then 0 else p
                   | None => 0
                   end
              else d
  | None => match Opt.price opt with
            | Some p => if Qeq_bool p 0 then 0 else p
            | None => 0
            end
  end.

End Reconciler.

(** ** Replies of a handler

    [Respond code body] is [res.status(code).json(body)].  [Fail (Some code)
    msg] is an error that carries an HTTP status: [next(new AppError(msg,
    code))], or [res.status(code); throw new Error(msg)].  [Fail None msg]
    is an exception without a status of its own (a [TypeError]), left to the
    error middleware. *)

Inductive Reply (B : Type) : Type :=
| Respond (code : Z) (body : B)
| Fail (code : option Z) (msg : string).
Arguments Respond {B} code body.
Arguments Fail {B} code msg.

Definition succeeded {B} (r : Reply B) : bool :=
  match r with
  | Respond _ _ => true
  | Fail _ _ => false
  end.

(** ** Cart enumeration: [getAllCartsData] and [getAllCarts] *)

Module Enumeration.

Record EnrichedItem := mkItem {
  _id : string;
  productId : string;
  sku : string;
  quantity : Z;
  notes : option string;
  productName : string;
  images : list string;
  price : Q;
  totalPrice : Q;
  label : option string;
  stock : option Z;
  type : option string
}.

(** What [localizedCart] carries once the items and totals are attached
    (the localized display strings of [getLocalizedResponse] are left
    out: they do not depend on prices). *)
Record LocalizedCart := mkCart {
  cartId : string;
  user : string;
  items : list EnrichedItem;
  cartTotalPrice : Q;
  cartTotalItems : Z
}.

Record Summary := mkSummary {
  totalCarts : nat;
  totalActiveCarts : nat;
  totalItems : Z
}.

Record CartsData := mkData {
  carts : list LocalizedCart;
  summary : Summary
}.

(** The side effects of an enumeration: the carts whose [save()] promise
    was fulfilled, and the lines written by [console.error]. *)
Record Effects := mkFx {
  saved : list Cart.t;
  logged : list string
}.

Definition noFx : Effects := mkFx [] [].

(** The outcome of [cart.save()]: [None] when the promise is fulfilled,
    [Some err] when it is rejected with [err]. *)
Definition SaveOutcome := Cart.t -> option string.

(** One turn of [for (const item of cart.items)]: the enriched item and
    the flag this item contributes to [needsUpdate].  [product.images]
    and [product._id] are read without [?.], so a [null] product throws a
    [TypeError]: the result is then [None]. *)
Definition enrichItem (item : CartItem.t) : option (EnrichedItem * bool) :=
  let product := CartItem.product item in
  let matched := Resolver.resolve product (CartItem.sku item) in
  let '(price, corrected) := Reconciler.reconcile item (snd <$> matched) in
  let totalPrice := price * inject_Z (CartItem.quantity item) in
  let variantImages :=
    default [] (matched ≫= fun m => Opt.variantImages (snd m)) in
  match product with
  | None => None
  | Some p =>
      let productImages := default [] (Product.images p) in
      Some (mkItem (CartItem._id item) (Product._id p) (CartItem.sku item)
              (CartItem.quantity item) (CartItem.notes item)
              (Product.name p)
              (if (0 <? length variantImages)%nat
               then variantImages else productImages)
              price totalPrice
              (matched ≫= fun m => Opt.value (snd m))
              (matched ≫= fun m => Opt.stock (snd m))
              (Variant.name ∘ fst <$> matched),
            corrected)
  end.

(** The whole loop, threading [enrichedItems], [grandTotal] and
    [needsUpdate]. *)
Fixpoint enrichLoop (items : list CartItem.t)
    (enrichedItems : list EnrichedItem) (grandTotal : Q)
    (needsUpdate : bool) : option (list EnrichedItem * Q * bool) :=
  match items with
  | [] => Some (enrichedItems, grandTotal, needsUpdate)
  | item :: rest =>
      match enrichItem item with
      | None => None
      | Some (e, corrected) =>
          enrichLoop rest (enrichedItems ++ [e])
            (grandTotal + totalPrice e) (needsUpdate || corrected)
      end
  end.

(** [cart.items.forEach((item, index) => ...)] of the write-back:
<<
    const enrichedItem = enrichedItems[index];
    if (enrichedItem && enrichedItem.price > 0 && item.price === 0)
      item.price = enrichedItem.price;
>> *)
Definition storedZero (p : option Q) : bool :=
  match p with
  | Some x => Js.isZero x
  | None => false
  end.

Definition applyCorrections (items : list CartItem.t)
    (enrichedItems : list EnrichedItem) : list CartItem.t :=
  imap (fun index item =>
          match enrichedItems !! index with
          | Some e =>
              if Js.ltb 0 (price e) && storedZero (CartItem.price item)
              then CartItem.setPrice item (price e)
              else item
          | None => item
          end) items.

(** [cart.items.reduce((sum, item) => sum + item.quantity, 0)] *)
Definition sumQuantities (items : list CartItem.t) : Z :=
  fold_left (fun sum item => (sum + CartItem.quantity item)%Z) items 0%Z.

(** [cart.save().catch((err) => console.error("Error updating cart
    prices:", err))]: the promise is not awaited; a rejection ends in the
    log and nowhere else. *)
Definition saveAndCatch (save : SaveOutcome) (cart : Cart.t)
    (fx : Effects) : Effects :=
  match save cart with
  | None => mkFx (saved fx ++ [cart]) (logged fx)
  | Some err =>
      mkFx (saved fx) (logged fx ++ ["Error updating cart prices: " +:+ err])
  end.

(** The callback of [carts.map]. *)
Definition processCart (save : SaveOutcome) (cart : Cart.t) (fx : Effects)
  : option LocalizedCart * Effects :=
  match enrichLoop (Cart.items cart) [] 0 false with
  | None => (None, fx)
  | Some (enrichedItems, grandTotal, needsUpdate) =>
      let cart' :=
        if needsUpdate
        then Cart.setItems cart
               (applyCorrections (Cart.items cart) enrichedItems)
        else cart in
      let fx' := if needsUpdate then saveAndCatch save cart' fx else fx in
      (Some (mkCart (Cart._id cart) (Cart.user cart) enrichedItems
               grandTotal (sumQuantities (Cart.items cart'))),
       fx')
  end.

(** [carts.map(...)]: an exception in the callback ends the map. *)
Fixpoint mapCarts (save : SaveOutcome) (cs : list Cart.t) (fx : Effects)
  : option (list LocalizedCart) * Effects :=
  match cs with
  | [] => (Some [], fx)
  | cart :: rest =>
      match processCart save cart fx with
      | (None, fx') => (None, fx')
      | (Some lc, fx') =>
          match mapCarts save rest fx' with
          | (None, fx'') => (None, fx'')
          | (Some lcs, fx'') => (Some (lc :: lcs), fx'')
          end
      end
  end.

Definition summarize (cs : list Cart.t) : Summary :=
  mkSummary (length cs)
    (length (filter (fun cart => (0 < length (Cart.items cart))%nat) cs))
    (fold_left (fun sum cart => (sum + sumQuantities (Cart.items cart))%Z)
       cs 0%Z).

(** [getAllCartsData(req)], where [cs] is what [Cart.find()...sort()]
    returned.  [None] is the [TypeError] of a cart line without product. *)
Definition getAllCartsData (save : SaveOutcome) (cs : list Cart.t)
  : option CartsData * Effects :=
  match mapCarts save cs noFx with
  | (None, fx) => (None, fx)
  | (Some cartsWithTotals, fx) =>
      (Some (mkData cartsWithTotals (summarize cs)), fx)
  end.

(** [.populate("items.product", "name")] of [getAllCarts]: only the name
    of the product is selected. *)
Definition populateName (cart : Cart.t) : Cart.t :=
  Cart.setItems cart
    (map (fun item =>
            CartItem.mk (CartItem._id item)
              ((fun p => Product.mk (Product._id p) (Product.name p)
                           None None) <$> CartItem.product item)
              (CartItem.sku item) (CartItem.quantity item)
              (CartItem.price item) (CartItem.notes item))
         (Cart.items cart)).

(** [getAllCarts]: the admin gate, then the same body as
    [getAllCartsData] (lines 248-339 repeat lines 42-133). *)
Definition getAllCarts (role : string) (save : SaveOutcome)
    (cs : list Cart.t) : Reply CartsData * Effects :=
  if negb (String.eqb role "admin")
  then (Fail (Some 403%Z) "Not authorized to access this resource", noFx)
  else
    match getAllCartsData save (map populateName cs) with
    | (None, fx) =>
        (Fail None "TypeError: Cannot read properties of null", fx)
    | (Some data, fx) => (Respond 200%Z data, fx)
    end.

End Enumeration.

(** ** Orders ([order/orderController.js]) *)

Module Order.

Record Item := mkItem {
  product : string;
  sku : string;
  quantity : Z;
  price : option Q
}.

Record t := mk {
  _id : string;
  user : string;
  items : list Item;
  totalOrderPrice : option Q;
  status : string;
  paymentStatus : string;
  isPaid : bool;
  paidAt : option Z;
  isDelivered : bool;
  deliveredAt : option Z;
  notes : option string
}.

Definition setStatus (s : string) (o : t) : t :=
  mk (_id o) (user o) (items o) (totalOrderPrice o) s (paymentStatus o)
     (isPaid o) (paidAt o) (isDelivered o) (deliveredAt o) (notes o).

Definition setPaymentStatus (s : string) (o : t) : t :=
  mk (_id o) (user o) (items o) (totalOrderPrice o) (status o) s
     (isPaid o) (paidAt o) (isDelivered o) (deliveredAt o) (notes o).

Definition setIsPaid (b : bool) (o : t) : t :=
  mk (_id o) (user o) (items o) (totalOrderPrice o) (status o)
     (paymentStatus o) b (paidAt o) (isDelivered o) (deliveredAt o)
     (notes o).

Definition setPaidAt (d : Z) (o : t) : t :=
  mk (_id o) (user o) (items o) (totalOrderPrice o) (status o)
     (paymentStatus o) (isPaid o) (Some d) (isDelivered o) (deliveredAt o)
     (notes o).

Definition setDelivered (d : Z) (o : t) : t :=
  mk (_id o) (user o) (items o) (totalOrderPrice o) (status o)
     (paymentStatus o) (isPaid o) (paidAt o) true (Some d) (notes o).

Definition setNotes (n : option string) (o : t) : t :=
  mk (_id o) (user o) (items o) (totalOrderPrice o) (status o)
     (paymentStatus o) (isPaid o) (paidAt o) (isDelivered o)
     (deliveredAt o) n.

End Order.

Module Orders.

Definition validStatuses : list string :=
  ["pending"; "processing"; "shipped"; "delivered"; "cancelled"].

Definition validPaymentStatuses : list string :=
  ["pending"; "paid"; "failed"; "refunded"].

(** [list.includes(s)] *)
Definition includes (l : list string) (s : string) : bool :=
  existsb (String.eqb s) l.

Inductive Body :=
| OrderJson (order : Order.t)
| Message (message : string).

(** Modelled from the spec: the order collection of [orderModel.js], which
    is not among the sources.  Section 6 of the design document gives it
    standard document semantics: [findById] returns the stored document or
    nothing, [save] persists the full document, [deleteOne] removes it. *)
Definition findById (id : string) (orders : gmap string Order.t)
  : option Order.t := orders !! id.

Definition save (id : string) (order : Order.t)
    (orders : gmap string Order.t) : gmap string Order.t :=
  <[id := order]> orders.

Definition deleteOne (id : string) (orders : gmap string Order.t)
  : gmap string Order.t := delete id orders.

Definition notFound : Reply Body := Fail (Some 404%Z) "Order not found".

(** [updateOrderToPaid] *)
Definition updateOrderToPaid (id : string) (orders : gmap string Order.t)
  : Reply Body * gmap string Order.t :=
  match findById id orders with
  | None => (notFound, orders)
  | Some order =>
      let order := Order.setIsPaid true order in
      let order := Order.setPaymentStatus "paid" order in
      let order := Order.setStatus "processing" order in
      (Respond 200%Z (OrderJson order), save id order orders)
  end.

(** [updateOrderToDelivered]; [now] is the value of [Date.now()]. *)
Definition updateOrderToDelivered (now : Z) (id : string)
    (orders : gmap string Order.t) : Reply Body * gmap string Order.t :=
  match findById id orders with
  | None => (notFound, orders)
  | Some order =>
      let order := Order.setDelivered now order in
      let order := Order.setStatus "delivered" order in
      (Respond 200%Z (OrderJson order), save id order orders)
  end.

(** [updateOrderStatus]; [status] is [req.body.status]. *)
Definition updateOrderStatus (status : string) (id : string)
    (orders : gmap string Order.t) : Reply Body * gmap string Order.t :=
  match findById id orders with
  | None => (notFound, orders)
  | Some order =>
      let order := Order.setStatus status order in
      (Respond 200%Z (OrderJson order), save id order orders)
  end.

(** [markOrderAsPaid]; [now] is the value of [new Date()]. *)
Definition markOrderAsPaid (now : Z) (id : string)
    (orders : gmap string Order.t) : Reply Body * gmap string Order.t :=
  match findById id orders with
  | None => (notFound, orders)
  | Some order =>
      let order := Order.setIsPaid true order in
      let order := Order.setPaidAt now order in
      let order := Order.setPaymentStatus "paid" order in
      (Respond 200%Z (OrderJson order), save id order orders)
  end.

(** [cancelOrder]; [requester] is [req.user._id]. *)
Definition cancelOrder (requester : string) (id : string)
    (orders : gmap string Order.t) : Reply Body * gmap string Order.t :=
  match findById id orders with
  | None => (notFound, orders)
  | Some order =>
      if negb (String.eqb (Order.user order) requester)
      then (Fail (Some 403%Z) "Not authorized to cancel this order", orders)
      else if negb (String.eqb (Order.status order) "pending")
      then (Fail (Some 400%Z) "Can only cancel pending orders", orders)
      else
        let order := Order.setStatus "cancelled" order in
        (Respond 200%Z (Message "Order cancelled successfully"),
         save id order orders)
  end.

(** [deleteOrder] *)
Definition deleteOrder (id : string) (orders : gmap string Order.t)
  : Reply Body * gmap string Order.t :=
  match findById id orders with
  | None => (notFound, orders)
  | Some order =>
      (Respond 200%Z (Message "Order deleted successfully"),
       deleteOne id orders)
  end.

(** [updatePaymentStatus]; [paymentStatus] is [req.body.paymentStatus]. *)
Definition updatePaymentStatus (now : Z) (paymentStatus : string)
    (id : string) (orders : gmap string Order.t)
  : Reply Body * gmap string Order.t :=
  if negb (includes validPaymentStatuses paymentStatus)
  then (Fail (Some 400%Z) "Invalid payment status", orders)
  else
    match findById id orders with
    | None => (notFound, orders)
    | Some order =>
        let order := Order.setPaymentStatus paymentStatus order in
        let order :=
          if String.eqb paymentStatus "paid"
          then Order.setPaidAt now
                 (Order.setIsPaid true (Order.setStatus "processing" order))
          else order in
        (Respond 200%Z (OrderJson order), save id order orders)
    end.

(** [updateOrderNotes]; [requester] and [role] come from [req.user]. *)
Definition updateOrderNotes (requester role : string)
    (notes : option string) (id : string) (orders : gmap string Order.t)
  : Reply Body * gmap string Order.t :=
  match findById id orders with
  | None => (notFound, orders)
  | Some order =>
      if negb (String.eqb (Order.user order) requester)
         && negb (String.eqb role "admin")
      then (Fail (Some 403%Z) "Not authorized to update this order", orders)
      else
        let order := Order.setNotes notes order in
        (Respond 200%Z (OrderJson order), save id order orders)
  end.

(** The operations of the controller that write to an existing order,
    as requests against one order identifier. *)
Inductive Op :=
| UpdateOrderToPaid
| UpdateOrderToDelivered (now : Z)
| UpdateOrderStatus (status : string)
| MarkOrderAsPaid (now : Z)
| CancelOrder (requester : string)
| DeleteOrder
| UpdatePaymentStatus (now : Z) (paymentStatus : string)
| UpdateOrderNotes (requester role : string) (notes : option string).

Definition run (op : Op) (id : string) (orders : gmap string Order.t)
  : Reply Body * gmap string Order.t :=
  match op with
  | UpdateOrderToPaid => updateOrderToPaid id orders
  | UpdateOrderToDelivered now => updateOrderToDelivered now id orders
  | UpdateOrderStatus status => updateOrderStatus status id orders
  | MarkOrderAsPaid now => markOrderAsPaid now id orders
  | CancelOrder requester => cancelOrder requester id orders
  | DeleteOrder => deleteOrder id orders
  | UpdatePaymentStatus now ps => updatePaymentStatus now ps id orders
  | UpdateOrderNotes requester role notes =>
      updateOrderNotes requester role notes id orders
  end.

(** The status an operation assigns to [order.status] without reading
    the current one, if it does so. *)
Definition overwrites (op : Op) : option string :=
  match op with
  | UpdateOrderToPaid => Some "processing"
  | UpdateOrderToDelivered _ => Some "delivered"
  | UpdateOrderStatus status => Some status
  | UpdatePaymentStatus _ ps =>
      if String.eqb ps "paid" then Some "processing" else None
  | MarkOrderAsPaid _ | CancelOrder _ | DeleteOrder
  | UpdateOrderNotes _ _ _ => None
  end.

Definition terminal (status : string) : bool :=
  String.eqb status "delivered" || String.eqb status "cancelled".

(** The status stored under [id], if there is such an order. *)
Definition statusOf (id : string) (orders : gmap string Order.t)
  : option string := Order.status <$> orders !! id.

End Orders.

(** ** Checkout: [createOrder] *)

Module Checkout.

Record Localized := mkLocalized {
  en : option string;
  ar : option string
}.

Record ShippingAddress := mkAddress {
  address : option Localized;
  city : option Localized;
  country : option Localized;
  postalCode : option string
}.

Record Body := mkBody {
  shippingAddress : option ShippingAddress;
  paymentMethod : option string;
  notes : option string
}.

(** The two collections [createOrder] touches; a cart is found by its
    owner ([Cart.findOne({ user: userId })]). *)
Record Store := mkStore {
  carts : gmap string Cart.t;
  orders : gmap string Order.t
}.

(** Truthiness of an optional string: missing and empty are falsy. *)
Definition truthyStr (s : option string) : bool :=
  match s with
  | Some s => negb (String.eqb s "")
  | None => false
  end.

(** The guard on [req.body.shippingAddress], negated. *)
Definition addressComplete (a : option ShippingAddress) : bool :=
  match a with
  | None => false
  | Some a =>
      truthyStr (address a ≫= en) && truthyStr (city a ≫= en)
      && truthyStr (country a ≫= en) && truthyStr (postalCode a)
  end.

(** An exception: the status it carries, if any, and its message. *)
Definition Exn : Type := option Z * string.

(** The callback of [cart.items.map] (lines 78-104).  [product.variants]
    is read without [?.]: a [null] product is a [TypeError]. *)
Definition orderItem (item : CartItem.t) : Exn + Order.Item :=
  match CartItem.product item with
  | None => inl (None, "TypeError: Cannot read properties of null")
  | Some product =>
      let sku := CartItem.sku item in
      match Resolver.matchedOption (Some product) sku with
      | None =>
          inl (Some 400%Z,
               "Invalid SKU (" +:+ sku +:+ ") for product "
               +:+ Product.name product)
      | Some matchedOption =>
          let price :=
            Js.or (Opt.priceAfterDiscount matchedOption)
              (Opt.price matchedOption) in
          inr (Order.mkItem (Product._id product) sku
                 (CartItem.quantity item) price)
      end
  end.

(** [cart.items.map(...)]: the first exception ends the map. *)
Fixpoint orderItems (items : list CartItem.t) : Exn + list Order.Item :=
  match items with
  | [] => inr []
  | item :: rest =>
      match orderItem item with
      | inl e => inl e
      | inr i =>
          match orderItems rest with
          | inl e => inl e
          | inr built => inr (i :: built)
          end
      end
  end.

(** How a price that is missing on an order item reads in JavaScript.  The
    two readings differ under arithmetic: [undefined * n] is [NaN], while
    [null * n] is 0. *)
Inductive Missing :=
| Undefined
| Null.

(** What the handler does not decide by itself: how a missing price reads,
    and whether each awaited operation of the store is fulfilled ([None])
    or rejected with an error. *)
Record Env := mkEnv {
  reads : Order.Item -> Missing;
  createRejects : option string;
  clearRejects : option string;
  populateRejects : option string
}.

(** [i.price * i.quantity]; [None] is [NaN]. *)
Definition lineTotal (reads : Order.Item -> Missing) (i : Order.Item)
  : option Q :=
  match Order.price i with
  | Some p => Some (p * inject_Z (Order.quantity i))
  | None =>
      match reads i with
      | Undefined => None
      | Null => Some (0 * inject_Z (Order.quantity i))
      end
  end.

(** [items.reduce((sum, i) => sum + i.price * i.quantity, 0)]; [None] is
    [NaN], which every later sum keeps. *)
Definition totalOrderPrice (reads : Order.Item -> Missing)
    (items : list Order.Item) : option Q :=
  fold_left (fun sum i => s ← sum; t ← lineTotal reads i; Some (s + t))
    items (Some 0).

(** Modelled from the spec: [Order.create] and [cart.clearCart] of the
    model files, which are not among the sources.  Section 3 of the
    design document: an order starts in status [pending] with payment
    status [pending], and conversion to an order clears the cart's
    items. *)
Definition create (newId user : string) (items : list Order.Item)
    (total : option Q) (notes : option string) : Order.t :=
  Order.mk newId user items total "pending" "pending" false None false
    None notes.

Definition clearCart (cart : Cart.t) : Cart.t := Cart.setItems cart [].

(** [createOrder]; [user] is [req.user._id] when the request is
    authenticated, [newId] the identifier the store gives the order.  The
    three awaited operations run one after the other and nothing is rolled
    back: a rejected [Order.create] leaves the store as it was, a rejected
    [cart.clearCart] leaves the order stored and the cart full, a rejected
    [order.populate] leaves the order stored and the cart cleared. *)
Definition createOrder (env : Env) (user : option string) (body : Body)
    (newId : string) (st : Store) : Reply Order.t * Store :=
  match user with
  | None => (Fail (Some 401%Z) "You are not authenticated", st)
  | Some userId =>
      match carts st !! userId with
      | None => (Fail (Some 400%Z) "Your cart is empty", st)
      | Some cart =>
          if (length (Cart.items cart) =? 0)%nat
          then (Fail (Some 400%Z) "Your cart is empty", st)
          else if negb (addressComplete (shippingAddress body))
          then (Fail (Some 400%Z)
                  "Complete bilingual shipping address is required", st)
          else
            match orderItems (Cart.items cart) with
            | inl (code, msg) => (Fail code msg, st)
            | inr items =>
                let order :=
                  create newId userId items
                    (totalOrderPrice (reads env) items)
                    (if truthyStr (notes body) then notes body else None)
                in
                match createRejects env with
                | Some err => (Fail None err, st)
                | None =>
                    let created :=
                      mkStore (carts st) (<[newId := order]> (orders st)) in
                    match clearRejects env with
                    | Some err => (Fail None err, created)
                    | None =>
                        let cleared :=
                          mkStore (<[userId := clearCart cart]> (carts st))
                            (<[newId := order]> (orders st)) in
                        match populateRejects env with
                        | Some err => (Fail None err, cleared)
                        | None => (Respond 201%Z order, cleared)
                        end
                    end
                end
            end
      end
  end.

End Checkout.

(** ** Sample documents

    Concrete products, carts and orders on which the definitions above are
    evaluated. *)

Module Sample.

(** A phone with two variant groups; the SKU [A1] occurs in both. *)
Definition storage128 : Opt.t :=
  Opt.mk "A1" (Some "128GB") (Some 60) (Some 50) (Some 5%Z) None.
Definition storage256 : Opt.t :=
  Opt.mk "B1" (Some "256GB") (Some 80) None (Some 3%Z) None.
Definition black : Opt.t :=
  Opt.mk "A1" (Some "Black") (Some 999) None (Some 1%Z) None.
Definition free : Opt.t :=
  Opt.mk "F1" (Some "Sample") (Some 0) None (Some 1%Z) None.

Definition storage : Variant.t :=
  Variant.mk "Storage" (Some [storage128; storage256]).
Definition color : Variant.t :=
  Variant.mk "Color" (Some [black; free]).
Definition phone : Product.t :=
  Product.mk "p1" "Phone" (Some [storage; color]) (Some ["phone.png"]).

(** The cart of the design document's scenario: [A1] stored with price 0,
    [A2] stored with price 30 and unknown to the product. *)
Definition itemA1 : CartItem.t :=
  CartItem.mk "i1" (Some phone) "A1" 2%Z (Some 0) None.
Definition itemA2 : CartItem.t :=
  CartItem.mk "i2" (Some phone) "A2" 1%Z (Some 30) None.
Definition cart : Cart.t := Cart.mk "c1" "u1" [itemA1; itemA2] None.

(** A cart whose only line has lost its product. *)
Definition orphan : CartItem.t := CartItem.mk "i3" None "A1" 1%Z (Some 0) None.
Definition orphanCart : Cart.t := Cart.mk "c2" "u2" [orphan] None.

(** A store that accepts every save, and one that rejects every save. *)
Definition saveOk : Enumeration.SaveOutcome := fun _ => None.
Definition saveFails : Enumeration.SaveOutcome :=
  fun _ => Some "connection lost".

(** Orders of user [u1] in three states. *)
Definition order (id status : string) : Order.t :=
  Order.mk id "u1" [Order.mkItem "p1" "A1" 2%Z (Some 50)] (Some 100)
    status "pending" false None false None None.

Definition orders : gmap string Order.t :=
  <["o1" := order "o1" "pending"]>
    (<["o2" := order "o2" "processing"]>
       (<["o3" := order "o3" "delivered"]> ∅)).

Definition address : Checkout.ShippingAddress :=
  Checkout.mkAddress
    (Some (Checkout.mkLocalized (Some "1 Nile St") None))
    (Some (Checkout.mkLocalized (Some "Cairo") None))
    (Some (Checkout.mkLocalized (Some "Egypt") None))
    (Some "11511").

Definition checkoutBody : Checkout.Body :=
  Checkout.mkBody (Some address) (Some "cash") None.

(** A cart whose line carries a stored price of 45 while the option it
    resolves to costs 50 after discount. *)
Definition pricedItem : CartItem.t :=
  CartItem.mk "i4" (Some phone) "A1" 2%Z (Some 45) None.
Definition pricedCart : Cart.t := Cart.mk "c3" "u1" [pricedItem] None.

Definition store (c : Cart.t) : Checkout.Store :=
  Checkout.mkStore (<["u1" := c]> ∅) ∅.

End Sample.

(** ** Reading one order: [getOrderById] *)

Module Reads.

(** [getOrderById]; [requester] and [role] come from [req.user].  The body
    is the order (the [customer] projection of [getUserByOrder] and the
    localized strings are left out). *)
Definition getOrderById (requester role : string) (id : string)
    (orders : gmap string Order.t) : Reply Orders.Body :=
  match Orders.findById id orders with
  | None => Fail (Some 404%Z) "Order not found"
  | Some order =>
      if negb (String.eqb (Order.user order) requester)
         && negb (String.eqb role "admin")
      then Fail (Some 403%Z) "Not authorized to access this order"
      else Respond 200%Z (Orders.OrderJson order)
  end.

End Reads.

(** ** Bulk repair: [fixCartPrices] *)

Module Repair.

Record Report := mkReport {
  updatedCarts : nat;
  updatedItems : nat
}.

(** One turn of [for (const item of cart.items)]: the resolver loop and
    the repair of lines 466-475.  The resolver reads [product?.variants],
    so a line without product is skipped, not an error. *)
Definition repairItem (item : CartItem.t) : CartItem.t * bool :=
  Reconciler.fixItem item
    (Resolver.matchedOption (CartItem.product item) (CartItem.sku item)).

(** The whole loop: the items after it, [cartNeedsUpdate] and the running
    [updatedItems]. *)
Fixpoint fixLoop (items : list CartItem.t) (cartNeedsUpdate : bool)
    (updatedItems : nat) : list CartItem.t * bool * nat :=
  match items with
  | [] => ([], cartNeedsUpdate, updatedItems)
  | item :: rest =>
      let '(item', changed) := repairItem item in
      let '(rest', flag, n) :=
        fixLoop rest (cartNeedsUpdate || changed)
          (if changed then S updatedItems else updatedItems) in
      (item' :: rest', flag, n)
  end.

(** [for (const cart of carts)]: [await cart.save()] is awaited, so a
    rejected save ends the handler with that error; the carts saved before
    stay saved. *)
Fixpoint fixCarts (save : Enumeration.SaveOutcome) (cs : list Cart.t)
    (updatedCarts updatedItems : nat) (saved : list Cart.t)
  : (string + Report) * list Cart.t :=
  match cs with
  | [] => (inr (mkReport updatedCarts updatedItems), saved)
  | cart :: rest =>
      let '(items, cartNeedsUpdate, updatedItems) :=
        fixLoop (Cart.items cart) false updatedItems in
      if cartNeedsUpdate
      then
        let cart' := Cart.setItems cart items in
        match save cart' with
        | Some err => (inl err, saved)
        | None =>
            fixCarts save rest (S updatedCarts) updatedItems (saved ++ [cart'])
        end
      else fixCarts save rest updatedCarts updatedItems saved
  end.

(** [fixCartPrices]: the reply carries the two counters (its message
    repeats them) and the second component lists the carts saved. *)
Definition fixCartPrices (role : string) (save : Enumeration.SaveOutcome)
    (cs : list Cart.t) : Reply Report * list Cart.t :=
  if negb (String.eqb role "admin")
  then (Fail (Some 403%Z) "Not authorized to access this resource", [])
  else
    match fixCarts save cs 0 0 [] with
    | (inl err, saved) => (Fail None err, saved)
    | (inr report, saved) => (Respond 200%Z report, saved)
    end.

(** The cart as the loop leaves it, whether a line of it is repaired, and
    how many are. *)
Definition repaired (cart : Cart.t) : Cart.t :=
  Cart.setItems cart (fst <$> (repairItem <$> Cart.items cart)).

Definition needsRepair (cart : Cart.t) : bool :=
  existsb (fun item => snd (repairItem item)) (Cart.items cart).

Definition repairs (cart : Cart.t) : nat :=
  length (List.filter (fun item => snd (repairItem item)) (Cart.items cart)).

End Repair.

(** ** Admin views built on [getAllCartsData] *)

Module Views.

Record Statistics := mkStatistics {
  totalCarts : nat;
  totalValue : Q;
  totalItems : Z;
  averageCartValue : Q
}.

Record UserCarts := mkUserCarts {
  user : option string;
  carts : list Enumeration.LocalizedCart;
  statistics : Statistics
}.

(** [carts.reduce((sum, cart) => sum + cart.totalPrice, 0)] *)
Definition sumTotalPrice (cs : list Enumeration.LocalizedCart) : Q :=
  fold_left (fun sum cart => sum + Enumeration.cartTotalPrice cart) cs 0.

(** [carts.reduce((sum, cart) => sum + cart.totalItems, 0)] *)
Definition sumTotalItems (cs : list Enumeration.LocalizedCart) : Z :=
  fold_left (fun sum cart => (sum + Enumeration.cartTotalItems cart)%Z) cs 0%Z.

(** [n > 0 ? total / n : 0].  [divide total n] is the quotient of the two
    doubles; its rounding is not modelled, so the division is a
    parameter. *)
Definition average (divide : Q -> nat -> Q) (total : Q) (n : nat) : Q :=
  if (0 <? n)%nat then divide total n else 0.

(** [getCartsByUser]: the admin gate, then [getAllCartsData] inside
    [try]; whatever it throws is answered with 500. *)
Definition getCartsByUser (divide : Q -> nat -> Q) (role userId : string)
    (save : Enumeration.SaveOutcome) (cs : list Cart.t)
  : Reply UserCarts * Enumeration.Effects :=
  if negb (String.eqb role "admin")
  then (Fail (Some 403%Z) "Not authorized to access this resource",
        Enumeration.noFx)
  else
    match Enumeration.getAllCartsData save cs with
    | (None, fx) => (Fail (Some 500%Z) "Error fetching user carts", fx)
    | (Some allCartsData, fx) =>
        let userCarts :=
          List.filter (fun cart => String.eqb (Enumeration.user cart) userId)
            (Enumeration.carts allCartsData) in
        let userTotalValue := sumTotalPrice userCarts in
        let userTotalItems := sumTotalItems userCarts in
        (Respond 200%Z
           (mkUserCarts (Enumeration.user <$> head userCarts) userCarts
              (mkStatistics (length userCarts) userTotalValue userTotalItems
                 (average divide userTotalValue (length userCarts)))),
         fx)
    end.

(** [carts.sort((a, b) => b.totalPrice - a.totalPrice)]: the sort of an
    array is stable, and the stable arrangement by a total preorder is
    unique; it is computed here by insertion from the right, an element
    going in front of the first one that is not greater. *)
Fixpoint insertByTotal (cart : Enumeration.LocalizedCart)
    (sorted : list Enumeration.LocalizedCart)
  : list Enumeration.LocalizedCart :=
  match sorted with
  | [] => [cart]
  | next :: rest =>
      if Qle_bool (Enumeration.cartTotalPrice next)
           (Enumeration.cartTotalPrice cart)
      then cart :: next :: rest
      else next :: insertByTotal cart rest
  end.

Definition sortByTotal (cs : list Enumeration.LocalizedCart)
  : list Enumeration.LocalizedCart :=
  foldr insertByTotal [] cs.

Record SummaryView := mkSummaryView {
  summary : Enumeration.Summary;
  summaryTotalValue : Q;
  summaryAverage : Q;
  summaryTotalCarts : nat;
  recentCarts : list Enumeration.LocalizedCart;
  topCarts : list Enumeration.LocalizedCart
}.

(** [getCartsSummary] *)
Definition getCartsSummary (divide : Q -> nat -> Q) (role : string)
    (save : Enumeration.SaveOutcome) (cs : list Cart.t)
  : Reply SummaryView * Enumeration.Effects :=
  if negb (String.eqb role "admin")
  then (Fail (Some 403%Z) "Not authorized to access this resource",
        Enumeration.noFx)
  else
    match Enumeration.getAllCartsData save cs with
    | (None, fx) => (Fail (Some 500%Z) "Error fetching carts summary", fx)
    | (Some cartsData, fx) =>
        let all := Enumeration.carts cartsData in
        let totalValue := sumTotalPrice all in
        (Respond 200%Z
           (mkSummaryView (Enumeration.summary cartsData) totalValue
              (average divide totalValue (length all)) (length all)
              (take 5 all) (take 3 (sortByTotal all))),
         fx)
    end.

End Views.

(** ** Helpers of the cart and order pages *)

Module Page.

(** A display text as the backend sends it: missing, a plain string, or an
    object with [en] and [ar]. *)
Inductive Text :=
| Absent
| Plain (s : string)
| Bilingual (en ar : option string).

(** [text[lang]] on a bilingual object. *)
Definition field (en ar : option string) (lang : string) : option string :=
  if String.eqb lang "en" then en
  else if String.eqb lang "ar" then ar
  else None.

(** [a || b] on an optional string and a string. *)
Definition orStr (a : option string) (b : string) : string :=
  match a with
  | Some s => if String.eqb s "" then b else s
  | None => b
  end.

(** [getLocalizedText(text, lang, fallback)] of [cart.jsx]:
<<
    if (!text) return fallback;
    if (typeof text === "string") return text;
    if (typeof text === "object" && (text.en || text.ar))
      return text[lang] || text.en || text.ar || fallback;
    return fallback;
>> *)
Definition getLocalizedText (text : Text) (lang fallback : string) : string :=
  match text with
  | Absent => fallback
  | Plain s => if String.eqb s "" then fallback else s
  | Bilingual en ar =>
      if Checkout.truthyStr en || Checkout.truthyStr ar
      then orStr (field en ar lang) (orStr en (orStr ar fallback))
      else fallback
  end.

(** A line of the cart shown to its owner. *)
Record Shown := mkShown {
  shownProductId : string;
  shownQuantity : Z
}.

(** [handleQuantityChange(productId, change)]: the quantity update that is
    sent, if any.
<<
    const item = cartData.items.find((i) => i.productId === productId);
    if (!item) return;
    const newQuantity = Math.max(1, item.quantity + change);
    updateQuantityMutation.mutate({ productId, quantity: newQuantity }, ...)
>> *)
Definition handleQuantityChange (items : list Shown) (productId : string)
    (change : Z) : option (string * Z) :=
  match List.find (fun i => String.eqb (shownProductId i) productId) items with
  | None => None
  | Some item => Some (productId, Z.max 1 (shownQuantity item + change))
  end.

(** A line of the cart being edited, and a line of the update that is
    sent. *)
Record Edited := mkEdited {
  productId : string;
  quantity : Z;
  price : option Q;
  basePrice : option Q;
  sku : option string
}.

Record Draft := mkDraft {
  draftProduct : string;
  draftQuantity : Z;
  draftPrice : option Q;
  draftSku : option string;
  draftNotes : option string
}.

(** The mapping of the save button (lines 825-833):
<<
    ({ productId, quantity, price, sku, basePrice }) => ({
      product: productId, quantity: Math.max(1, quantity),
      price: price || basePrice || 0, sku: sku || `SKU-${productId}`,
      notes: null })
>> *)
Definition fromEdited (item : Edited) : Draft :=
  mkDraft (productId item) (Z.max 1 (quantity item))
    (Some (Js.orNum (Js.or (price item) (basePrice item)) 0))
    (Some (orStr (sku item) ("SKU-" +:+ productId item)))
    None.

(** The mapping of [handleSaveCart] (lines 273-279):
<<
    (item) => ({
      product: item.product, quantity: Math.max(1, item.quantity),
      price: item.price || 0, sku: item.sku || `SKU-${item.product}`,
      notes: item.notes || null })
>> *)
Definition validated (item : Draft) : Draft :=
  mkDraft (draftProduct item) (Z.max 1 (draftQuantity item))
    (Some (Js.orNum (draftPrice item) 0))
    (Some (orStr (draftSku item) ("SKU-" +:+ draftProduct item)))
    (if Checkout.truthyStr (draftNotes item) then draftNotes item else None).

Inductive Action (A : Type) : Type :=
| Toast (message : string)
| Redirect (message path : string)
| Mutate (request : A).
Arguments Toast {A} message.
Arguments Redirect {A} message path.
Arguments Mutate {A} request.

(** [handleSaveCart]: without the identifier of the cart being edited
    nothing is sent. *)
Definition handleSaveCart (editingCartId : option string)
    (items : list Draft) : Action (string * list Draft) :=
  match editingCartId with
  | Some cartId =>
      if String.eqb cartId ""
      then Toast "Cart ID is missing"
      else Mutate (cartId, map validated items)
  | None => Toast "Cart ID is missing"
  end.

(** [handleStatusChange] of the orders page; [adminUser] is the role of the
    logged-in user, if there is one. *)
Definition handleStatusChange (adminUser : option string)
    (orderId newStatus : string) : Action (string * string) :=
  match adminUser with
  | None => Redirect "Please log in to update order status" "/login"
  | Some role =>
      if negb (String.eqb role "admin")
      then Toast "Only administrators can update order status"
      else if negb (Orders.includes Orders.validStatuses newStatus)
      then Toast "Invalid order status"
      else Mutate (orderId, newStatus)
  end.

End Page.

(** ** Further sample documents *)

Module Fixtures.

(** A cart whose lines lack a stored price altogether. *)
Definition unpriced : CartItem.t :=
  CartItem.mk "i5" (Some Sample.phone) "A1" 3%Z None None.
Definition unpricedCart : Cart.t := Cart.mk "c4" "u3" [unpriced] None.

(** The sample cart after the bulk repair. *)
Definition repairedA1 : CartItem.t :=
  CartItem.mk "i1" (Some Sample.phone) "A1" 2%Z (Some 50) None.
Definition repairedCart : Cart.t :=
  Cart.mk "c1" "u1" [repairedA1; Sample.itemA2] None.

(** A paid, delivered order. *)
Definition settled : Order.t :=
  Order.mk "o4" "u1" [Order.mkItem "p1" "A1" 2%Z (Some 50)] (Some 100)
    "delivered" "paid" true (Some 100%Z) true (Some 200%Z) None.

Definition orders : gmap string Order.t := <["o4" := settled]> Sample.orders.

Definition shown : list Page.Shown :=
  [Page.mkShown "p1" 1%Z; Page.mkShown "p2" 4%Z].

(** A store whose operations all succeed and where a missing price reads
    [undefined]; one where clearing the cart is rejected; one where a
    missing price reads [null]. *)
Definition calm : Checkout.Env :=
  Checkout.mkEnv (fun _ => Checkout.Undefined) None None None.
Definition clearFails : Checkout.Env :=
  Checkout.mkEnv (fun _ => Checkout.Undefined) None (Some "connection lost")
    None.

(** A cart whose first line has lost its product and whose second line
    has a SKU unknown to its product. *)
Definition orphanFirst : Cart.t :=
  Cart.mk "c5" "u1" [Sample.orphan; Sample.itemA2] None.

(** A quotient for the examples: the exact one. *)
Definition exactDivide (total : Q) (n : nat) : Q :=
  total / inject_Z (Z.of_nat n).

(** A store that rejects the save of one cart and accepts the others. *)
Definition saveExcept (id : string) : Enumeration.SaveOutcome :=
  fun cart =>
    if String.eqb (Cart._id cart) id then Some "connection lost" else None.

End Fixtures.

(** * Properties *)

Lemma ltb_spec (a b : Q) : Js.ltb a b = true <-> a < b.
Proof. unfold Js.ltb, Qlt. apply Z.ltb_lt. Qed.

Lemma isZero_spec (x : Q) : Js.isZero x = true <-> x == 0.
Proof. unfold Js.isZero. apply Qeq_bool_iff. Qed.

Lemma isZero_pos (x : Q) : 0 < x -> Js.isZero x = false.
Proof.
  intros Hx. destruct (Js.isZero x) eqn:E; [|done].
  apply isZero_spec in E. rewrite E in Hx. by apply Qlt_irrefl in Hx.
Qed.

Lemma truthy_false (p : option Q) :
  Js.truthy p = false <-> p = None \/ exists x, p = Some x /\ x == 0.
Proof.
  destruct p as [x|]; simpl.
  - rewrite negb_false_iff, isZero_spec. split.
    + intros Hx. right. by exists x.
    + intros [|[y [[= <-] Hy]]]; done.
  - split; [by left | done].
Qed.

(** ** The variant resolver *)

Section Find.
Context {A : Type} (f : A -> bool).

Lemma find_app_first (l1 l2 : list A) :
  List.find f (l1 ++ l2)
  = match List.find f l1 with
    | Some x => Some x
    | None => List.find f l2
    end.
Proof.
  induction l1 as [|x l1 IH]; simpl; [done|].
  by destruct (f x).
Qed.

Lemma find_first (l : list A) :
  match List.find f l with
  | Some x =>
      exists before after,
        l = before ++ x :: after /\ f x = true
        /\ Forall (fun y => f y = false) before
  | None => Forall (fun y => f y = false) l
  end.
Proof.
  induction l as [|y l IH]; simpl; [by constructor|].
  destruct (f y) eqn:Hy.
  - exists [], l. by repeat split.
  - destruct (List.find f l) as [x|].
    + destruct IH as (before & after & -> & Hx & Hb).
      exists (y :: before), after. repeat split; [done|]. by constructor.
    + by constructor.
Qed.
End Find.

Lemma scan_find (variants : list Variant.t) (sku : string) :
  snd <$> Resolver.scan variants sku
  = List.find (fun opt => String.eqb (Opt.sku opt) sku)
      (concat (map (fun v => default [] (Variant.options v)) variants)).
Proof.
  induction variants as [|v vs IH]; simpl; [done|].
  rewrite find_app_first. unfold Resolver.findOption.
  destruct (Variant.options v) as [opts|]; simpl.
  - by destruct (List.find _ opts).
  - done.
Qed.

Lemma matchedOption_spec (product : option Product.t) (sku : string) :
  Resolver.matchedOption product sku = Resolver.resolve_spec product sku.
Proof. apply scan_find. Qed.

(** C3.  For every product and SKU the resolver loop returns the first
    option, in variant-then-option stored order, whose SKU equals the
    target: everything before it in that order has another SKU (so the first
    of several duplicates wins).  When no option matches the result is the
    absent value, not an error: the resolver has no failing outcome. *)
Theorem resolver_first_match (product : option Product.t) (sku : string) :
  Resolver.matchedOption product sku = Resolver.resolve_spec product sku
  /\ match Resolver.matchedOption product sku with
     | Some opt =>
         exists before after,
           Resolver.allOptions product = before ++ opt :: after
           /\ Opt.sku opt = sku
           /\ Forall (fun o => Opt.sku o <> sku) before
     | None => Forall (fun o => Opt.sku o <> sku) (Resolver.allOptions product)
     end.
Proof.
  split; [apply matchedOption_spec|].
  rewrite matchedOption_spec. unfold Resolver.resolve_spec.
  pose proof (find_first (fun opt => String.eqb (Opt.sku opt) sku)
                (Resolver.allOptions product)) as H.
  destruct (List.find _ _) as [opt|].
  - destruct H as (before & after & Heq & Hsku & Hb).
    exists before, after. split; [done|]. split.
    + by apply String.eqb_eq.
    + eapply Forall_impl; [exact Hb|]. intros o Ho. by apply String.eqb_neq.
  - eapply Forall_impl; [exact H|]. intros o Ho. by apply String.eqb_neq.
Qed.

(** ** The price reconciler *)

Lemma optionPrice_is_spec (opt : Opt.t) :
  Reconciler.optionPrice opt = Reconciler.optionPrice_spec opt.
Proof.
  unfold Reconciler.optionPrice, Reconciler.optionPrice_spec, Js.or, Js.orNum,
    Js.truthy, Js.isZero.
  destruct (Opt.priceAfterDiscount opt) as [d|]; simpl.
  - destruct (Qeq_bool d 0) eqn:Hd; simpl; [done|]. by rewrite Hd.
  - done.
Qed.

Lemma reconcile_positive (item : CartItem.t) (matched : option Opt.t) (p : Q) :
  CartItem.price item = Some p -> 0 < p ->
  Reconciler.reconcile item matched = (p, false).
Proof.
  intros Hp Hpos. unfold Reconciler.reconcile. rewrite Hp. simpl.
  rewrite (isZero_pos p Hpos). rewrite (isZero_pos p Hpos).
  by destruct matched.
Qed.

Lemma reconcile_missing (item : CartItem.t) (matched : option Opt.t) :
  Js.truthy (CartItem.price item) = false ->
  Reconciler.reconcile item matched
  = match matched with
    | Some opt =>
        (Reconciler.optionPrice opt, Js.ltb 0 (Reconciler.optionPrice opt))
    | None => (0, false)
    end.
Proof.
  intros Hp. unfold Reconciler.reconcile.
  destruct (CartItem.price item) as [x|]; simpl in *.
  - apply negb_false_iff in Hp. rewrite Hp. by destruct matched.
  - by destruct matched.
Qed.

(** C1.  A cart item whose stored price is a positive number keeps that
    price and is not marked as corrected, whatever the resolver found: in
    the enumeration ([reconcile], and so in every enriched item) and in the
    bulk repair ([fixItem]), which leaves the item as it is. *)
Theorem positive_price_authoritative
    (item : CartItem.t) (matched : option Opt.t) (p : Q) :
  CartItem.price item = Some p -> 0 < p ->
  Reconciler.reconcile item matched = (p, false)
  /\ Reconciler.fixItem item matched = (item, false)
  /\ forall e corrected,
       Enumeration.enrichItem item = Some (e, corrected) ->
       Enumeration.price e = p /\ corrected = false.
Proof.
  intros Hp Hpos. split; [by apply reconcile_positive|]. split.
  - unfold Reconciler.fixItem, Reconciler.priceMissing. rewrite Hp. simpl.
    by rewrite (isZero_pos p Hpos).
  - intros e c. unfold Enumeration.enrichItem.
    rewrite (reconcile_positive item _ p Hp Hpos).
    destruct (CartItem.product item); [|done].
    intros [= <- <-]. done.
Qed.

Lemma positive_price_authoritative_witness :
  Reconciler.reconcile Sample.itemA2 None = (30, false)
  /\ Reconciler.fixItem Sample.itemA2 None = (Sample.itemA2, false).
Proof.
  destruct (positive_price_authoritative Sample.itemA2 None 30) as (H1 & H2 & _);
    [reflexivity | reflexivity |].
  exact (conj H1 H2).
Defined.

(** C2.  A cart item whose stored price is zero or absent takes, when its
    SKU resolves to an option, the option's [priceAfterDiscount] if that is
    present and truthy, else the option's [price], else 0, and is marked as
    corrected exactly when that value is positive (the bulk repair then
    stores it on the item); when the SKU does not resolve the price is 0 and
    the item is not corrected. *)
Theorem missing_price_reconciled (item : CartItem.t) :
  Js.truthy (CartItem.price item) = false ->
  (forall opt,
     Reconciler.reconcile item (Some opt)
     = (Reconciler.optionPrice_spec opt,
        Js.ltb 0 (Reconciler.optionPrice_spec opt))
     /\ (snd (Reconciler.reconcile item (Some opt)) = true
         <-> 0 < Reconciler.optionPrice_spec opt)
     /\ Reconciler.fixItem item (Some opt)
        = if Js.ltb 0 (Reconciler.optionPrice_spec opt)
          then (CartItem.setPrice item (Reconciler.optionPrice_spec opt), true)
          else (item, false))
  /\ Reconciler.reconcile item None = (0, false)
  /\ Reconciler.fixItem item None = (item, false).
Proof.
  intros Hp. split; [|split].
  - intros opt. rewrite (reconcile_missing item (Some opt) Hp).
    rewrite optionPrice_is_spec. split; [done|]. split.
    + simpl. apply ltb_spec.
    + unfold Reconciler.fixItem. rewrite optionPrice_is_spec.
      assert (Reconciler.priceMissing (CartItem.price item) = true) as ->;
        [|done].
      unfold Reconciler.priceMissing.
      destruct (CartItem.price item) as [x|]; [|done].
      rewrite Hp. apply orb_true_r.
  - by rewrite (reconcile_missing item None Hp).
  - unfold Reconciler.fixItem.
    by destruct (Reconciler.priceMissing (CartItem.price item)).
Qed.

Lemma missing_price_reconciled_witness :
  Reconciler.reconcile Sample.itemA1 (Some Sample.storage128) = (50, true)
  /\ Reconciler.reconcile Sample.itemA1 (Some Sample.free) = (0, false)
  /\ Reconciler.reconcile Sample.itemA1 None = (0, false).
Proof.
  destruct (missing_price_reconciled Sample.itemA1 eq_refl) as (H & Hn & _).
  split; [exact (proj1 (H Sample.storage128))|].
  split; [exact (proj1 (H Sample.free))|exact Hn].
Defined.

(** The scenario of the design document: [A1] is repaired to 50 and raises
    the write-back, [A2] keeps its 30, the total is 50*2 + 30*1. *)
Example scenario_enrichment :
  match Enumeration.enrichLoop (Cart.items Sample.cart) [] 0 false with
  | Some (items, grandTotal, needsUpdate) =>
      map Enumeration.price items = [50; 30]
      /\ Qeq_bool grandTotal 130 = true /\ needsUpdate = true
  | None => False
  end.
Proof. vm_compute. done. Qed.

(** With duplicate SKUs the first group in stored order wins. *)
Example duplicate_sku_first_wins :
  Resolver.resolve (Some Sample.phone) "A1"
  = Some (Sample.storage, Sample.storage128).
Proof. reflexivity. Qed.

(** ** Numeric reading of [a || 0] *)

Lemma orNum_zero (d : option Q) : Js.orNum d 0 == default 0 d.
Proof.
  destruct d as [x|]; simpl; [|reflexivity].
  destruct (Js.isZero x) eqn:Hx; [|reflexivity].
  apply isZero_spec in Hx. by rewrite Hx.
Qed.

(** ** Orders *)

Lemma eqb_false_neq (a b : string) : String.eqb a b = false <-> a <> b.
Proof. apply String.eqb_neq. Qed.

Lemma statusOf_save (id : string) (order : Order.t)
    (orders : gmap string Order.t) :
  Orders.statusOf id (Orders.save id order orders) = Some (Order.status order).
Proof. unfold Orders.statusOf, Orders.save. by rewrite lookup_insert_eq. Qed.

(** The claim C5 read literally fails for a requester who does not own the
    order: the pending order [o1] of user [u1] is not cancelled for [u2],
    and for the processing order [o2] the error of [u2] is 403, not 400. *)
Lemma cancel_by_stranger_rejected :
  Orders.statusOf "o1" Sample.orders = Some "pending"
  /\ Orders.cancelOrder "u2" "o1" Sample.orders
     = (Fail (Some 403%Z) "Not authorized to cancel this order", Sample.orders)
  /\ Orders.statusOf "o2" Sample.orders = Some "processing"
  /\ Orders.cancelOrder "u2" "o2" Sample.orders
     = (Fail (Some 403%Z) "Not authorized to cancel this order", Sample.orders).
Proof. repeat split. Qed.

(** C5 (amended).  For an existing order, [cancelOrder] succeeds exactly
    when the requester owns the order and its status is [pending], and it
    then stores the status [cancelled].  The owner's attempt on an order in
    any other status fails with 400 and a requester who is not the owner is
    refused with 403 whatever the status; in both cases the store is left as
    it was. *)
Theorem cancel_pending_by_owner
    (requester id : string) (orders : gmap string Order.t) (order : Order.t) :
  orders !! id = Some order ->
  (succeeded (fst (Orders.cancelOrder requester id orders)) = true
   <-> Order.user order = requester /\ Order.status order = "pending")
  /\ (Order.user order = requester -> Order.status order = "pending" ->
      Orders.cancelOrder requester id orders
      = (Respond 200%Z (Orders.Message "Order cancelled successfully"),
         <[id := Order.setStatus "cancelled" order]> orders))
  /\ (Order.user order = requester -> Order.status order <> "pending" ->
      Orders.cancelOrder requester id orders
      = (Fail (Some 400%Z) "Can only cancel pending orders", orders))
  /\ (Order.user order <> requester ->
      Orders.cancelOrder requester id orders
      = (Fail (Some 403%Z) "Not authorized to cancel this order", orders)).
Proof.
  intros Hfind. unfold Orders.cancelOrder, Orders.findById, Orders.save.
  rewrite Hfind.
  destruct (String.eqb_spec (Order.user order) requester) as [Hu|Hu];
    destruct (String.eqb_spec (Order.status order) "pending") as [Hs|Hs];
    simpl; intuition congruence.
Qed.

Lemma cancel_pending_by_owner_witness :
  Orders.cancelOrder "u1" "o1" Sample.orders
  = (Respond 200%Z (Orders.Message "Order cancelled successfully"),
     <["o1" := Order.setStatus "cancelled" (Sample.order "o1" "pending")]>
       Sample.orders)
  /\ Orders.cancelOrder "u1" "o2" Sample.orders
     = (Fail (Some 400%Z) "Can only cancel pending orders", Sample.orders).
Proof.
  split.
  - destruct (cancel_pending_by_owner "u1" "o1" Sample.orders
                (Sample.order "o1" "pending") eq_refl) as (_ & H & _).
    exact (H eq_refl eq_refl).
  - destruct (cancel_pending_by_owner "u1" "o2" Sample.orders
                (Sample.order "o2" "processing") eq_refl) as (_ & _ & H & _).
    apply (H eq_refl). discriminate.
Defined.

(** C6.  Evaluation of the three ways of marking an existing order paid.
    [markOrderAsPaid] stores [paymentStatus = "paid"], [isPaid = true] and
    the paid timestamp in one save, and leaves [status] as it was, where
    the claim asks for [processing].  [updatePaymentStatus] with [paid]
    stores all four in one save; [updateOrderToPaid] sets the status and
    leaves [paidAt] as it was. *)
Theorem markOrderAsPaid_leaves_status
    (now : Z) (id : string) (orders : gmap string Order.t) (order : Order.t) :
  orders !! id = Some order ->
  (exists paid,
     Orders.markOrderAsPaid now id orders
     = (Respond 200%Z (Orders.OrderJson paid), <[id := paid]> orders)
     /\ Order.paymentStatus paid = "paid" /\ Order.isPaid paid = true
     /\ Order.paidAt paid = Some now
     /\ Order.status paid = Order.status order)
  /\ (exists paid,
        Orders.updatePaymentStatus now "paid" id orders
        = (Respond 200%Z (Orders.OrderJson paid), <[id := paid]> orders)
        /\ Order.paymentStatus paid = "paid" /\ Order.isPaid paid = true
        /\ Order.paidAt paid = Some now
        /\ Order.status paid = "processing")
  /\ (exists paid,
        Orders.updateOrderToPaid id orders
        = (Respond 200%Z (Orders.OrderJson paid), <[id := paid]> orders)
        /\ Order.paymentStatus paid = "paid" /\ Order.isPaid paid = true
        /\ Order.paidAt paid = Order.paidAt order
        /\ Order.status paid = "processing").
Proof.
  intros Hfind.
  unfold Orders.markOrderAsPaid, Orders.updatePaymentStatus,
    Orders.updateOrderToPaid, Orders.findById, Orders.save.
  rewrite Hfind. simpl. repeat split; eexists; repeat split.
Qed.

Lemma markOrderAsPaid_leaves_status_witness :
  Orders.statusOf "o1" (snd (Orders.markOrderAsPaid 1700000000 "o1" Sample.orders))
  = Some "pending".
Proof.
  destruct (markOrderAsPaid_leaves_status 1700000000 "o1" Sample.orders
              (Sample.order "o1" "pending") eq_refl)
    as ((paid & -> & _ & _ & _ & Hstatus) & _).
  unfold Orders.statusOf. simpl. rewrite lookup_insert_eq. simpl.
  by rewrite Hstatus.
Defined.

(** The claim C7 read literally fails: the delivered order [o3] is moved
    back to [pending] by [updateOrderStatus] and to [processing] by
    [updatePaymentStatus] with [paid]; the order [o1], once cancelled by its
    owner, is turned into a delivered one by [updateOrderToDelivered]. *)
Lemma terminal_status_overwritten :
  Orders.statusOf "o3" Sample.orders = Some "delivered"
  /\ Orders.statusOf "o3"
       (snd (Orders.updateOrderStatus "pending" "o3" Sample.orders))
     = Some "pending"
  /\ Orders.statusOf "o3"
       (snd (Orders.updatePaymentStatus 1700000000 "paid" "o3" Sample.orders))
     = Some "processing"
  /\ Orders.statusOf "o1" (snd (Orders.cancelOrder "u1" "o1" Sample.orders))
     = Some "cancelled"
  /\ Orders.statusOf "o1"
       (snd (Orders.updateOrderToDelivered 1700000000 "o1"
               (snd (Orders.cancelOrder "u1" "o1" Sample.orders))))
     = Some "delivered".
Proof. repeat split. Qed.

Lemma terminal_not_pending (status : string) :
  Orders.terminal status = true -> String.eqb status "pending" = false.
Proof.
  unfold Orders.terminal. intros H. apply orb_true_iff in H.
  destruct H as [H|H]; apply String.eqb_eq in H; by subst.
Qed.

Lemma run_other (op : Orders.Op) (target id : string)
    (orders : gmap string Order.t) :
  target <> id -> snd (Orders.run op target orders) !! id = orders !! id.
Proof.
  intros Hne.
  destruct op; simpl;
    unfold Orders.updateOrderToPaid, Orders.updateOrderToDelivered,
      Orders.updateOrderStatus, Orders.markOrderAsPaid, Orders.cancelOrder,
      Orders.deleteOrder, Orders.updatePaymentStatus, Orders.updateOrderNotes,
      Orders.findById, Orders.save, Orders.deleteOne;
    repeat (match goal with
            | |- context [match ?x with _ => _ end] => destruct x
            end; simpl);
    rewrite ?lookup_insert_ne, ?lookup_delete_ne by done; done.
Qed.

(** C7 (amended).  For an order whose status is [delivered] or [cancelled]:
    an operation aimed at another order leaves it alone; [cancelOrder] (the
    one operation that reads the current status), [markOrderAsPaid],
    [updateOrderNotes] and [updatePaymentStatus] with a value other than
    [paid] leave its status as it is, and [deleteOrder] removes the order;
    [updateOrderStatus], [updateOrderToDelivered], [updateOrderToPaid] and
    [updatePaymentStatus] with [paid] store the status they assign whatever
    the current one is. *)
Theorem terminal_status_after
    (op : Orders.Op) (target id : string) (orders : gmap string Order.t)
    (order : Order.t) :
  orders !! id = Some order ->
  Orders.terminal (Order.status order) = true ->
  (target <> id ->
   Orders.statusOf id (snd (Orders.run op target orders))
   = Some (Order.status order))
  /\ match Orders.overwrites op, op with
     | Some assigned, _ =>
         Orders.statusOf id (snd (Orders.run op id orders)) = Some assigned
     | None, Orders.DeleteOrder => snd (Orders.run op id orders) !! id = None
     | None, _ =>
         Orders.statusOf id (snd (Orders.run op id orders))
         = Some (Order.status order)
     end.
Proof.
  intros Hfind Hterm. split.
  - intros Hne. unfold Orders.statusOf. by rewrite run_other, Hfind.
  - pose proof (terminal_not_pending _ Hterm) as Hpending.
    destruct op; simpl;
      unfold Orders.updateOrderToPaid, Orders.updateOrderToDelivered,
        Orders.updateOrderStatus, Orders.markOrderAsPaid, Orders.cancelOrder,
        Orders.deleteOrder, Orders.updatePaymentStatus,
        Orders.updateOrderNotes, Orders.findById, Orders.deleteOne;
      rewrite ?Hfind, ?Hpending; simpl; rewrite ?statusOf_save; try done.
    + destruct (negb (String.eqb (Order.user order) requester)); simpl;
        unfold Orders.statusOf; by rewrite Hfind.
    + by rewrite lookup_delete_eq.
    + destruct (String.eqb paymentStatus "paid") eqn:Hpaid.
      * apply String.eqb_eq in Hpaid. subst paymentStatus. simpl.
        by rewrite statusOf_save.
      * destruct (negb _); simpl.
        -- unfold Orders.statusOf. by rewrite Hfind.
        -- by rewrite statusOf_save.
    + destruct (_ && _); simpl; rewrite ?statusOf_save;
        unfold Orders.statusOf; by rewrite ?Hfind.
Qed.

Lemma terminal_status_after_witness :
  Orders.statusOf "o3" (snd (Orders.cancelOrder "u1" "o3" Sample.orders))
  = Some "delivered".
Proof.
  exact (proj2 (terminal_status_after (Orders.CancelOrder "u1") "o3" "o3"
                  Sample.orders (Sample.order "o3" "delivered")
                  eq_refl eq_refl)).
Defined.

(** C8.  Evaluation of [updateOrderStatus] on an existing order: whatever
    string the request carries is assigned to [order.status] and saved, and
    the reply is a success.  [validStatuses] is not consulted, so a value
    outside it is stored where the claim asks for a 400 error and an
    unchanged order. *)
Theorem updateOrderStatus_stores_any_status
    (status id : string) (orders : gmap string Order.t) (order : Order.t) :
  orders !! id = Some order ->
  Orders.updateOrderStatus status id orders
  = (Respond 200%Z (Orders.OrderJson (Order.setStatus status order)),
     <[id := Order.setStatus status order]> orders)
  /\ Orders.statusOf id (snd (Orders.updateOrderStatus status id orders))
     = Some status.
Proof.
  intros Hfind. unfold Orders.updateOrderStatus, Orders.findById.
  rewrite Hfind. simpl. split; [done|]. by rewrite statusOf_save.
Qed.

Lemma updateOrderStatus_stores_any_status_witness :
  Orders.includes Orders.validStatuses "returned" = false
  /\ succeeded (fst (Orders.updateOrderStatus "returned" "o1" Sample.orders))
     = true
  /\ Orders.statusOf "o1"
       (snd (Orders.updateOrderStatus "returned" "o1" Sample.orders))
     = Some "returned".
Proof.
  destruct (updateOrderStatus_stores_any_status "returned" "o1" Sample.orders
              (Sample.order "o1" "pending") eq_refl) as [Hrun Hstatus].
  split; [reflexivity|]. split; [by rewrite Hrun | exact Hstatus].
Defined.

(** ** The write-back of the cart enumeration *)

Lemma processCart_reply (save1 save2 : Enumeration.SaveOutcome)
    (cart : Cart.t) (fx1 fx2 : Enumeration.Effects) :
  fst (Enumeration.processCart save1 cart fx1)
  = fst (Enumeration.processCart save2 cart fx2).
Proof.
  unfold Enumeration.processCart.
  by destruct (Enumeration.enrichLoop _ _ _ _) as [[[items total] flag]|].
Qed.

Lemma mapCarts_reply (save1 save2 : Enumeration.SaveOutcome)
    (cs : list Cart.t) (fx1 fx2 : Enumeration.Effects) :
  fst (Enumeration.mapCarts save1 cs fx1)
  = fst (Enumeration.mapCarts save2 cs fx2).
Proof.
  revert fx1 fx2. induction cs as [|cart rest IH]; intros fx1 fx2; simpl.
  - done.
  - pose proof (processCart_reply save1 save2 cart fx1 fx2) as Hcart.
    destruct (Enumeration.processCart save1 cart fx1) as [[lc1|] g1],
      (Enumeration.processCart save2 cart fx2) as [[lc2|] g2];
      simpl in Hcart; try done.
    injection Hcart as ->. specialize (IH g1 g2).
    destruct (Enumeration.mapCarts save1 rest g1) as [[l1|] h1],
      (Enumeration.mapCarts save2 rest g2) as [[l2|] h2];
      simpl in *; congruence.
Qed.

Lemma getAllCartsData_reply (save1 save2 : Enumeration.SaveOutcome)
    (cs : list Cart.t) :
  fst (Enumeration.getAllCartsData save1 cs)
  = fst (Enumeration.getAllCartsData save2 cs).
Proof.
  unfold Enumeration.getAllCartsData.
  pose proof (mapCarts_reply save1 save2 cs Enumeration.noFx Enumeration.noFx)
    as H.
  destruct (Enumeration.mapCarts save1 cs _) as [[l1|] h1],
    (Enumeration.mapCarts save2 cs _) as [[l2|] h2]; simpl in *; congruence.
Qed.

Lemma enrichLoop_returns (items : list CartItem.t)
    (acc : list Enumeration.EnrichedItem) (total : Q) (flag : bool) :
  Forall (fun item => is_Some (CartItem.product item)) items ->
  is_Some (Enumeration.enrichLoop items acc total flag).
Proof.
  intros Hall. revert acc total flag.
  induction Hall as [|item rest [p Hp] _ IH]; intros acc total flag; simpl.
  - by eexists.
  - unfold Enumeration.enrichItem. rewrite Hp.
    destruct (Reconciler.reconcile _ _) as [price corrected]. apply IH.
Qed.

Lemma mapCarts_returns (save : Enumeration.SaveOutcome) (cs : list Cart.t)
    (fx : Enumeration.Effects) :
  Forall (fun cart =>
            Forall (fun item => is_Some (CartItem.product item))
              (Cart.items cart)) cs ->
  is_Some (fst (Enumeration.mapCarts save cs fx)).
Proof.
  intros Hall. revert fx.
  induction Hall as [|cart rest Hcart _ IH]; intros fx; simpl.
  - by eexists.
  - unfold Enumeration.processCart.
    destruct (enrichLoop_returns (Cart.items cart) [] 0 false Hcart)
      as [[[items total] flag] ->].
    match goal with
    | |- context [Enumeration.mapCarts save rest ?f] =>
        destruct (IH f) as [lcs Hl];
        destruct (Enumeration.mapCarts save rest f) as [[l|] h]
    end; simpl in *; [by eexists | done].
Qed.

(** C9.  The reply of the cart enumeration does not depend on the outcome
    of the write-back: [getAllCartsData] and [getAllCarts] return the same
    enriched carts and totals whether [cart.save()] is fulfilled or
    rejected, and they return them successfully whenever every cart line
    has its product.  A cart that raises [needsUpdate] is saved once; a
    rejected save adds one line to the error log and nothing to the
    store. *)
Theorem write_back_failure_not_surfaced :
  (forall save1 save2 cs,
     fst (Enumeration.getAllCartsData save1 cs)
     = fst (Enumeration.getAllCartsData save2 cs))
  /\ (forall role save1 save2 cs,
        fst (Enumeration.getAllCarts role save1 cs)
        = fst (Enumeration.getAllCarts role save2 cs))
  /\ (forall save cs,
        Forall (fun cart =>
                  Forall (fun item => is_Some (CartItem.product item))
                    (Cart.items cart)) cs ->
        is_Some (fst (Enumeration.getAllCartsData save cs)))
  /\ (forall save cart fx items total,
        Enumeration.enrichLoop (Cart.items cart) [] 0 false
        = Some (items, total, true) ->
        exists written,
          written = Cart.setItems cart
                      (Enumeration.applyCorrections (Cart.items cart) items)
          /\ Enumeration.processCart save cart fx
             = (Some (Enumeration.mkCart (Cart._id cart) (Cart.user cart)
                        items total
                        (Enumeration.sumQuantities (Cart.items written))),
                Enumeration.saveAndCatch save written fx))
  /\ (forall save cart fx err,
        save cart = Some err ->
        Enumeration.saveAndCatch save cart fx
        = Enumeration.mkFx (Enumeration.saved fx)
            (Enumeration.logged fx
             ++ ["Error updating cart prices: " +:+ err])).
Proof.
  split; [exact getAllCartsData_reply|]. split; [|split; [|split]].
  - intros role save1 save2 cs. unfold Enumeration.getAllCarts.
    destruct (negb (String.eqb role "admin")); [done|].
    pose proof (getAllCartsData_reply save1 save2 (map Enumeration.populateName cs))
      as H.
    destruct (Enumeration.getAllCartsData save1 _) as [[d1|] h1],
      (Enumeration.getAllCartsData save2 _) as [[d2|] h2];
      simpl in *; congruence.
  - intros save cs Hall. unfold Enumeration.getAllCartsData.
    destruct (mapCarts_returns save cs Enumeration.noFx Hall) as [lcs Hl].
    destruct (Enumeration.mapCarts save cs _) as [[l|] h]; simpl in *;
      [by eexists | done].
  - intros save cart fx items total Hloop. eexists. split; [done|].
    unfold Enumeration.processCart. by rewrite Hloop.
  - intros save cart fx err Hsave. unfold Enumeration.saveAndCatch.
    by rewrite Hsave.
Qed.

(** A cart line without product ends the enumeration with a [TypeError],
    again whatever the store does. *)
Example enumeration_orphan_line :
  Enumeration.getAllCartsData Sample.saveOk [Sample.orphanCart]
  = (None, Enumeration.noFx)
  /\ Enumeration.getAllCartsData Sample.saveFails [Sample.orphanCart]
     = (None, Enumeration.noFx).
Proof. split; reflexivity. Qed.

Lemma write_back_failure_not_surfaced_witness :
  fst (Enumeration.getAllCartsData Sample.saveFails [Sample.cart])
  = fst (Enumeration.getAllCartsData Sample.saveOk [Sample.cart])
  /\ is_Some (fst (Enumeration.getAllCartsData Sample.saveFails [Sample.cart]))
  /\ snd (Enumeration.getAllCartsData Sample.saveFails [Sample.cart])
     = Enumeration.mkFx []
         ["Error updating cart prices: connection lost"].
Proof.
  destruct write_back_failure_not_surfaced as (Hsame & _ & Hok & _).
  split; [apply Hsame|]. split; [|reflexivity].
  apply Hok. repeat constructor; by eexists.
Defined.

(** ** Checkout *)

Lemma orderItems_priced (items : list CartItem.t) (built : list Order.Item) :
  Checkout.orderItems items = inr built ->
  Forall2 (fun item i =>
             exists product opt,
               CartItem.product item = Some product
               /\ Resolver.matchedOption (Some product) (CartItem.sku item)
                  = Some opt
               /\ i = Order.mkItem (Product._id product) (CartItem.sku item)
                        (CartItem.quantity item)
                        (if Js.truthy (Opt.priceAfterDiscount opt)
                         then Opt.priceAfterDiscount opt else Opt.price opt))
    items built.
Proof.
  revert built. induction items as [|item rest IH]; intros built; simpl.
  - intros [= <-]. constructor.
  - unfold Checkout.orderItem at 1.
    destruct (CartItem.product item) as [product|] eqn:Hp; [|done].
    destruct (Resolver.matchedOption (Some product) (CartItem.sku item))
      as [opt|] eqn:Hm; [|done].
    destruct (Checkout.orderItems rest) as [e|tail]; [done|].
    intros [= <-]. constructor; [|by apply IH]. by exists product, opt.
Qed.

Lemma orderItems_returns (items : list CartItem.t) :
  Forall (fun item =>
            exists product opt,
              CartItem.product item = Some product
              /\ Resolver.matchedOption (Some product) (CartItem.sku item)
                 = Some opt) items ->
  exists built, Checkout.orderItems items = inr built.
Proof.
  induction 1 as [|item rest (product & opt & Hp & Hm) _ [tail IH]]; simpl.
  - by eexists.
  - unfold Checkout.orderItem. rewrite Hp, Hm, IH. by eexists.
Qed.

Lemma orderItems_aborts (items : list CartItem.t) :
  Exists (fun item =>
            exists product,
              CartItem.product item = Some product
              /\ Resolver.matchedOption (Some product) (CartItem.sku item)
                 = None) items ->
  exists e, Checkout.orderItems items = inl e.
Proof.
  induction 1 as [item rest (product & Hp & Hm)|item rest _ [e IH]]; simpl.
  - unfold Checkout.orderItem. rewrite Hp, Hm. by eexists.
  - destruct (Checkout.orderItem item) as [e'|i]; [by eexists|].
    rewrite IH. by eexists.
Qed.

Lemma orderItems_first_invalid (before after : list CartItem.t)
    (item : CartItem.t) (product : Product.t) :
  Forall (fun line => is_Some (CartItem.product line)) before ->
  CartItem.product item = Some product ->
  Resolver.matchedOption (Some product) (CartItem.sku item) = None ->
  exists msg,
    Checkout.orderItems (before ++ item :: after) = inl (Some 400%Z, msg).
Proof.
  intros Hbefore Hp Hm.
  induction Hbefore as [|line rest [p Hline] _ [msg IH]]; simpl.
  - unfold Checkout.orderItem. rewrite Hp, Hm. by eexists.
  - unfold Checkout.orderItem at 1. rewrite Hline.
    destruct (Resolver.matchedOption (Some p) (CartItem.sku line));
      [|by eexists].
    rewrite IH. by eexists.
Qed.

Lemma createOrder_succeeded (env : Checkout.Env) (userId : string)
    (body : Checkout.Body) (newId : string) (st st' : Checkout.Store)
    (code : Z) (order : Order.t) :
  Checkout.createOrder env (Some userId) body newId st
  = (Respond code order, st') ->
  exists cart,
    Checkout.carts st !! userId = Some cart
    /\ Checkout.orderItems (Cart.items cart) = inr (Order.items order)
    /\ Order.totalOrderPrice order
       = Checkout.totalOrderPrice (Checkout.reads env) (Order.items order)
    /\ st' = Checkout.mkStore
               (<[userId := Checkout.clearCart cart]> (Checkout.carts st))
               (<[newId := order]> (Checkout.orders st)).
Proof.
  unfold Checkout.createOrder.
  destruct (Checkout.carts st !! userId) as [cart|]; [|done].
  destruct (length (Cart.items cart) =? 0)%nat; [done|].
  destruct (negb _); [done|].
  destruct (Checkout.orderItems _) as [[? ?]|items] eqn:Hitems; [done|].
  destruct (Checkout.createRejects env); [done|].
  destruct (Checkout.clearRejects env); [done|].
  destruct (Checkout.populateRejects env); [done|].
  intros [= _ <- <-]. by exists cart.
Qed.

(** The claim C10 read literally fails when a line before the unresolved
    one has lost its product: [A2] does not resolve in the phone, yet the
    checkout of the cart [orphan; A2] ends with the [TypeError] of the
    first line, which carries no status, and not with a 400 error. *)
Lemma orphan_line_hides_invalid_sku :
  Resolver.matchedOption (CartItem.product Sample.itemA2)
    (CartItem.sku Sample.itemA2) = None
  /\ Checkout.createOrder Fixtures.calm (Some "u1") Sample.checkoutBody "o9"
       (Sample.store Fixtures.orphanFirst)
     = (Fail None "TypeError: Cannot read properties of null",
        Sample.store Fixtures.orphanFirst).
Proof. split; reflexivity. Qed.

(** C10 (amended).  An order that is created carries one item per line of
    the cart, in order, whose unit price comes from the option the line
    resolves to alone, [priceAfterDiscount] when truthy and the option's
    [price] otherwise: the price stored on the cart line is not read, so
    changing it changes nothing.  A line whose SKU does not resolve in its
    product raises a 400 error, and one such line anywhere in the cart
    makes [createOrder] fail and leave the store as it was: no order is
    created and the cart is not cleared.  The error is that 400 when no
    line before the unresolved one has lost its product.  When every line
    resolves, the guards pass and the store accepts the writes, the order
    is created. *)
Theorem checkout_prices_from_options :
  (forall env userId body newId st code order st',
     Checkout.createOrder env (Some userId) body newId st
     = (Respond code order, st') ->
     exists cart,
       Checkout.carts st !! userId = Some cart
       /\ Forall2 (fun item i =>
                     exists product opt,
                       CartItem.product item = Some product
                       /\ Resolver.matchedOption (Some product)
                            (CartItem.sku item) = Some opt
                       /\ i = Order.mkItem (Product._id product)
                                (CartItem.sku item) (CartItem.quantity item)
                                (if Js.truthy (Opt.priceAfterDiscount opt)
                                 then Opt.priceAfterDiscount opt
                                 else Opt.price opt))
            (Cart.items cart) (Order.items order))
  /\ (forall item stored,
        Checkout.orderItem
          (CartItem.mk (CartItem._id item) (CartItem.product item)
             (CartItem.sku item) (CartItem.quantity item) stored
             (CartItem.notes item))
        = Checkout.orderItem item)
  /\ (forall item product,
        CartItem.product item = Some product ->
        Resolver.matchedOption (Some product) (CartItem.sku item) = None ->
        exists msg, Checkout.orderItem item = inl (Some 400%Z, msg))
  /\ (forall env userId body newId st cart,
        Checkout.carts st !! userId = Some cart ->
        Exists (fun item =>
                  exists product,
                    CartItem.product item = Some product
                    /\ Resolver.matchedOption (Some product)
                         (CartItem.sku item) = None) (Cart.items cart) ->
        exists code msg,
          Checkout.createOrder env (Some userId) body newId st
          = (Fail code msg, st))
  /\ (forall env userId body newId st cart before item after product,
        Checkout.carts st !! userId = Some cart ->
        Cart.items cart = before ++ item :: after ->
        Forall (fun line => is_Some (CartItem.product line)) before ->
        CartItem.product item = Some product ->
        Resolver.matchedOption (Some product) (CartItem.sku item) = None ->
        exists msg,
          Checkout.createOrder env (Some userId) body newId st
          = (Fail (Some 400%Z) msg, st))
  /\ (forall env userId body newId st cart,
        Checkout.carts st !! userId = Some cart ->
        Cart.items cart <> [] ->
        Checkout.addressComplete (Checkout.shippingAddress body) = true ->
        Forall (fun item =>
                  exists product opt,
                    CartItem.product item = Some product
                    /\ Resolver.matchedOption (Some product)
                         (CartItem.sku item) = Some opt) (Cart.items cart) ->
        Checkout.createRejects env = None ->
        Checkout.clearRejects env = None ->
        Checkout.populateRejects env = None ->
        exists order st',
          Checkout.createOrder env (Some userId) body newId st
          = (Respond 201%Z order, st')).
Proof.
  split; [|split; [|split; [|split; [|split]]]].
  - intros env userId body newId st code order st' Hrun.
    destruct (createOrder_succeeded _ _ _ _ _ _ _ _ Hrun)
      as (cart & Hcart & Hitems & _).
    exists cart. split; [done|]. by apply orderItems_priced.
  - intros item stored. done.
  - intros item product Hp Hm. unfold Checkout.orderItem.
    rewrite Hp, Hm. by eexists.
  - intros env userId body newId st cart Hcart Hex.
    unfold Checkout.createOrder. rewrite Hcart.
    destruct (length (Cart.items cart) =? 0)%nat; [by do 2 eexists|].
    destruct (negb (Checkout.addressComplete _)); [by do 2 eexists|].
    destruct (orderItems_aborts _ Hex) as [[code msg] ->]. by do 2 eexists.
  - intros env userId body newId st cart before item after product
      Hcart Hitems Hbefore Hp Hm.
    unfold Checkout.createOrder. rewrite Hcart.
    destruct (length (Cart.items cart) =? 0)%nat; [by eexists|].
    destruct (negb (Checkout.addressComplete _)); [by eexists|].
    rewrite Hitems.
    destruct (orderItems_first_invalid before after item product
                Hbefore Hp Hm) as [msg ->].
    by eexists.
  - intros env userId body newId st cart Hcart Hne Haddr Hall Hc Hcl Hpop.
    unfold Checkout.createOrder. rewrite Hcart, Haddr, Hc, Hcl, Hpop.
    destruct (orderItems_returns _ Hall) as [built ->].
    destruct (Cart.items cart) as [|i rest]; [done|]. simpl.
    by do 2 eexists.
Qed.

Lemma checkout_prices_from_options_witness :
  (exists msg,
     Checkout.createOrder Fixtures.calm (Some "u1") Sample.checkoutBody "o9"
       (Sample.store Sample.cart)
     = (Fail (Some 400%Z) msg, Sample.store Sample.cart))
  /\ (exists order st',
        Checkout.createOrder Fixtures.calm (Some "u1") Sample.checkoutBody
          "o9" (Sample.store Sample.pricedCart)
        = (Respond 201%Z order, st')).
Proof.
  destruct checkout_prices_from_options as (_ & _ & _ & _ & Habort & Hok).
  split.
  - apply (Habort Fixtures.calm "u1" Sample.checkoutBody "o9"
             (Sample.store Sample.cart) Sample.cart
             [Sample.itemA1] Sample.itemA2 [] Sample.phone);
      try reflexivity.
    repeat constructor; by eexists.
  - apply (Hok Fixtures.calm "u1" Sample.checkoutBody "o9"
             (Sample.store Sample.pricedCart) Sample.pricedCart);
      try reflexivity; [done|].
    repeat constructor. by exists Sample.phone, Sample.storage128.
Defined.

(** The rejected checkout of the sample cart, and the accepted checkout of
    a cart whose line carries a stored price of 45: the order item is
    priced 50. *)
Example checkout_invalid_sku :
  Checkout.createOrder Fixtures.calm (Some "u1") Sample.checkoutBody "o9"
    (Sample.store Sample.cart)
  = (Fail (Some 400%Z) "Invalid SKU (A2) for product Phone",
     Sample.store Sample.cart).
Proof. reflexivity. Qed.

Example checkout_ignores_stored_price :
  Order.items
    <$> (match fst (Checkout.createOrder Fixtures.calm (Some "u1")
                      Sample.checkoutBody "o9"
                      (Sample.store Sample.pricedCart)) with
         | Respond _ order => Some order
         | Fail _ _ => None
         end)
  = Some [Order.mkItem "p1" "A1" 2 (Some 50)].
Proof. reflexivity. Qed.

(** * Further properties of the order controller *)

Ltac unfold_orders :=
  unfold Orders.run, Orders.updateOrderToPaid, Orders.updateOrderToDelivered,
    Orders.updateOrderStatus, Orders.markOrderAsPaid, Orders.cancelOrder,
    Orders.deleteOrder, Orders.updatePaymentStatus, Orders.updateOrderNotes,
    Orders.notFound, Orders.findById, Orders.save, Orders.deleteOne in *.

(** X1.  An operation aimed at an identifier that is not in the store
    answers 404 and leaves the store as it is; only [updatePaymentStatus]
    answers 400 instead when the payment status is not a valid one, because
    it validates before it looks the order up. *)
Theorem unknown_order_not_found
    (op : Orders.Op) (id : string) (orders : gmap string Order.t) :
  orders !! id = None ->
  snd (Orders.run op id orders) = orders
  /\ fst (Orders.run op id orders)
     = match op with
       | Orders.UpdatePaymentStatus _ paymentStatus =>
           if Orders.includes Orders.validPaymentStatuses paymentStatus
           then Fail (Some 404%Z) "Order not found"
           else Fail (Some 400%Z) "Invalid payment status"
       | _ => Fail (Some 404%Z) "Order not found"
       end.
Proof.
  intros Hnone. destruct op; unfold_orders; rewrite ?Hnone; try done.
  by destruct (Orders.includes _ _); simpl; rewrite ?Hnone.
Qed.

Lemma unknown_order_not_found_witness :
  Orders.run (Orders.UpdateOrderStatus "shipped") "o7" Sample.orders
  = (Fail (Some 404%Z) "Order not found", Sample.orders).
Proof.
  destruct (unknown_order_not_found (Orders.UpdateOrderStatus "shipped") "o7"
              Sample.orders eq_refl) as [Hstore Hreply].
  rewrite (surjective_pairing (Orders.run _ _ _)). by rewrite Hstore, Hreply.
Defined.

(** X2.  An operation that answers with an error has changed nothing: the
    store after a failed operation is the store before it. *)
Theorem failed_operation_keeps_store
    (op : Orders.Op) (id : string) (orders : gmap string Order.t) :
  succeeded (fst (Orders.run op id orders)) = false ->
  snd (Orders.run op id orders) = orders.
Proof.
  destruct op; unfold_orders;
    repeat (match goal with
            | |- context [match ?x with _ => _ end] => destruct x eqn:?
            end; simpl); done.
Qed.

Lemma failed_operation_keeps_store_witness :
  snd (Orders.run (Orders.CancelOrder "u1") "o2" Sample.orders)
  = Sample.orders.
Proof.
  apply (failed_operation_keeps_store (Orders.CancelOrder "u1") "o2").
  reflexivity.
Defined.

(** X3.  Operations are local and create nothing: the orders other than
    the targeted one are exactly as before, no identifier is added to the
    store, and only [deleteOrder] removes one. *)
Theorem operations_are_local
    (op : Orders.Op) (target : string) (orders : gmap string Order.t) :
  delete target (snd (Orders.run op target orders)) = delete target orders
  /\ dom (snd (Orders.run op target orders)) ⊆ dom orders
  /\ (op <> Orders.DeleteOrder ->
      dom (snd (Orders.run op target orders)) = dom orders).
Proof.
  assert (forall id, id <> target ->
            snd (Orders.run op target orders) !! id = orders !! id) as Hother.
  { intros id Hne. by apply run_other. }
  assert (is_Some (snd (Orders.run op target orders) !! target) ->
          is_Some (orders !! target)) as Hkept.
  { destruct (orders !! target) as [order|] eqn:Hfind; [by eexists|].
    destruct op; unfold_orders; rewrite ?Hfind; simpl; rewrite ?Hfind;
      try (by intros [? ?]).
    destruct (negb _); simpl; rewrite ?Hfind; by intros [? ?]. }
  split; [|split].
  - apply map_eq. intros id. destruct (decide (id = target)) as [->|Hne].
    + by rewrite !lookup_delete_eq.
    + rewrite !lookup_delete_ne by done. by apply Hother.
  - intros id. rewrite !elem_of_dom.
    destruct (decide (id = target)) as [->|Hne]; [done|]. by rewrite Hother.
  - intros Hop. apply set_eq. intros id. rewrite !elem_of_dom.
    destruct (decide (id = target)) as [->|Hne]; [|by rewrite Hother].
    split; [done|]. intros [order Hfind].
    destruct op; try done; unfold_orders; rewrite ?Hfind; simpl;
      repeat (match goal with
              | |- context [if ?x then _ else _] => destruct x
              end; simpl);
      rewrite ?Hfind, ?lookup_insert_eq; by eexists.
Qed.

Lemma operations_are_local_witness :
  delete "o1" (snd (Orders.run (Orders.CancelOrder "u1") "o1" Sample.orders))
  = delete "o1" Sample.orders
  /\ dom (snd (Orders.run (Orders.CancelOrder "u1") "o1" Sample.orders))
     = dom Sample.orders.
Proof.
  destruct (operations_are_local (Orders.CancelOrder "u1") "o1" Sample.orders)
    as (Hlocal & _ & Hdom).
  split; [exact Hlocal|]. apply Hdom. discriminate.
Defined.

Lemma run_kept (op : Orders.Op) (id : string) (orders : gmap string Order.t)
    (order order' : Order.t) :
  orders !! id = Some order ->
  snd (Orders.run op id orders) !! id = Some order' ->
  order' = order
  \/ (exists s, order' = Order.setStatus s order)
  \/ (exists now, order' = Order.setStatus "delivered"
                            (Order.setDelivered now order))
  \/ order' = Order.setStatus "processing"
                (Order.setPaymentStatus "paid" (Order.setIsPaid true order))
  \/ (exists now, order' = Order.setPaymentStatus "paid"
                            (Order.setPaidAt now (Order.setIsPaid true order)))
  \/ (exists ps, order' = Order.setPaymentStatus ps order)
  \/ (exists now, order' = Order.setPaidAt now
                            (Order.setIsPaid true
                               (Order.setStatus "processing"
                                  (Order.setPaymentStatus "paid" order))))
  \/ (exists notes, order' = Order.setNotes notes order).
Proof.
  intros Hfind.
  destruct op; unfold_orders; rewrite ?Hfind; simpl;
    repeat (match goal with
            | |- context [if ?x then _ else _] => destruct x eqn:?
            end; simpl);
    rewrite ?Hfind, ?lookup_insert_eq, ?lookup_delete_eq;
    intros [= <-];
    repeat match goal with
           | H : String.eqb _ "paid" = true |- _ =>
               apply String.eqb_eq in H; subst
           end;
    eauto 12.
Qed.

(** X4.  No operation rewrites what was ordered: an order that is still in
    the store after an operation has the identifier, the owner, the item
    list and the total price it had before. *)
Theorem order_snapshot_immutable
    (op : Orders.Op) (id : string) (orders : gmap string Order.t)
    (order order' : Order.t) :
  orders !! id = Some order ->
  snd (Orders.run op id orders) !! id = Some order' ->
  Order._id order' = Order._id order
  /\ Order.user order' = Order.user order
  /\ Order.items order' = Order.items order
  /\ Order.totalOrderPrice order' = Order.totalOrderPrice order.
Proof.
  intros Hfind Hafter.
  destruct (run_kept op id orders order order' Hfind Hafter)
    as [->|[[? ->]|[[? ->]|[->|[[? ->]|[[? ->]|[[? ->]|[? ->]]]]]]]]; done.
Qed.

Lemma order_snapshot_immutable_witness :
  Order.items
    (Order.setStatus "shipped" (Sample.order "o2" "processing"))
  = [Order.mkItem "p1" "A1" 2 (Some 50)].
Proof.
  exact (proj1 (proj2 (proj2
    (order_snapshot_immutable (Orders.UpdateOrderStatus "shipped") "o2"
       Sample.orders (Sample.order "o2" "processing")
       (Order.setStatus "shipped" (Sample.order "o2" "processing"))
       eq_refl eq_refl)))).
Defined.

(** X5.  Payment and delivery are never undone: whatever operation runs,
    an order that was paid stays paid, one that was delivered keeps
    [isDelivered], and a recorded [paidAt] or [deliveredAt] is never
    cleared.  In particular setting the payment status to [refunded] or
    [failed] leaves [isPaid] as it was. *)
Theorem payment_and_delivery_flags_monotone
    (op : Orders.Op) (id : string) (orders : gmap string Order.t)
    (order order' : Order.t) :
  orders !! id = Some order ->
  snd (Orders.run op id orders) !! id = Some order' ->
  (Order.isPaid order = true -> Order.isPaid order' = true)
  /\ (Order.isDelivered order = true -> Order.isDelivered order' = true)
  /\ (is_Some (Order.paidAt order) -> is_Some (Order.paidAt order'))
  /\ (is_Some (Order.deliveredAt order) -> is_Some (Order.deliveredAt order')).
Proof.
  intros Hfind Hafter.
  destruct (run_kept op id orders order order' Hfind Hafter)
    as [->|[[? ->]|[[? ->]|[->|[[? ->]|[[? ->]|[[? ->]|[? ->]]]]]]]];
    simpl; repeat split; intros; by eauto.
Qed.

Lemma payment_and_delivery_flags_monotone_witness :
  Order.isPaid
    <$> snd (Orders.updatePaymentStatus 300 "refunded" "o4" Fixtures.orders)
        !! "o4"
  = Some true.
Proof.
  pose proof (payment_and_delivery_flags_monotone
                (Orders.UpdatePaymentStatus 300 "refunded") "o4"
                Fixtures.orders Fixtures.settled
                (Order.setPaymentStatus "refunded" Fixtures.settled)
                eq_refl eq_refl) as (Hpaid & _).
  change (Some (Order.isPaid
                  (Order.setPaymentStatus "refunded" Fixtures.settled))
          = Some true).
  by rewrite (Hpaid eq_refl).
Defined.

(** X6.  Cancellation cannot be repeated: once the owner has cancelled a
    pending order, a further [cancelOrder] on it is refused, with 400 for
    the owner and 403 for anybody else, and changes nothing. *)
Theorem cancel_twice_rejected
    (owner other id : string) (orders : gmap string Order.t)
    (order : Order.t) :
  orders !! id = Some order ->
  Order.user order = owner ->
  Order.status order = "pending" ->
  Orders.cancelOrder other id (snd (Orders.cancelOrder owner id orders))
  = (Fail (Some (if String.eqb owner other then 400%Z else 403%Z))
       (if String.eqb owner other
        then "Can only cancel pending orders"
        else "Not authorized to cancel this order"),
     snd (Orders.cancelOrder owner id orders)).
Proof.
  intros Hfind Huser Hstatus. unfold Orders.cancelOrder at 2 3.
  unfold Orders.findById, Orders.save. rewrite Hfind, Huser, Hstatus.
  rewrite String.eqb_refl. simpl.
  unfold Orders.cancelOrder, Orders.findById. rewrite lookup_insert_eq.
  simpl. rewrite Huser. by destruct (String.eqb owner other).
Qed.

Lemma cancel_twice_rejected_witness :
  Orders.cancelOrder "u1" "o1" (snd (Orders.cancelOrder "u1" "o1" Sample.orders))
  = (Fail (Some 400%Z) "Can only cancel pending orders",
     snd (Orders.cancelOrder "u1" "o1" Sample.orders)).
Proof.
  exact (cancel_twice_rejected "u1" "u1" "o1" Sample.orders
           (Sample.order "o1" "pending") eq_refl eq_refl eq_refl).
Defined.

(** X7.  The two partial ways of marking an order paid add up to the
    complete one: [updateOrderToPaid] followed by [markOrderAsPaid], in
    either order, leaves the store that [updatePaymentStatus] with [paid]
    leaves. *)
Theorem paid_paths_compose
    (now : Z) (id : string) (orders : gmap string Order.t) :
  snd (Orders.markOrderAsPaid now id (snd (Orders.updateOrderToPaid id orders)))
  = snd (Orders.updatePaymentStatus now "paid" id orders)
  /\ snd (Orders.updateOrderToPaid id
            (snd (Orders.markOrderAsPaid now id orders)))
     = snd (Orders.updatePaymentStatus now "paid" id orders).
Proof.
  unfold_orders. simpl.
  destruct (orders !! id) as [order|] eqn:Hfind; simpl;
    rewrite ?lookup_insert_eq, ?Hfind; simpl; [|done].
  by rewrite !insert_insert_eq.
Qed.

(** X8.  Reading an order and editing its notes are open to the same
    requesters: for an existing order both succeed exactly for its owner
    and for an admin, and are refused with 403 for anybody else; the edit
    then stores the order with the new notes and nothing else changed. *)
Theorem owner_or_admin_access
    (requester role : string) (notes : option string) (id : string)
    (orders : gmap string Order.t) (order : Order.t) :
  orders !! id = Some order ->
  (succeeded (Reads.getOrderById requester role id orders) = true
   <-> Order.user order = requester \/ role = "admin")
  /\ (succeeded (fst (Orders.updateOrderNotes requester role notes id orders))
      = true
      <-> Order.user order = requester \/ role = "admin")
  /\ (Order.user order = requester \/ role = "admin" ->
      Reads.getOrderById requester role id orders
      = Respond 200%Z (Orders.OrderJson order)
      /\ snd (Orders.updateOrderNotes requester role notes id orders)
         = <[id := Order.setNotes notes order]> orders)
  /\ (Order.user order <> requester -> role <> "admin" ->
      Reads.getOrderById requester role id orders
      = Fail (Some 403%Z) "Not authorized to access this order"
      /\ Orders.updateOrderNotes requester role notes id orders
         = (Fail (Some 403%Z) "Not authorized to update this order", orders)).
Proof.
  intros Hfind. unfold Reads.getOrderById. unfold_orders. rewrite Hfind.
  destruct (String.eqb_spec (Order.user order) requester) as [Hu|Hu];
    destruct (String.eqb_spec role "admin") as [Hr|Hr];
    simpl; intuition congruence.
Qed.

Lemma owner_or_admin_access_witness :
  Reads.getOrderById "u9" "admin" "o1" Sample.orders
  = Respond 200%Z (Orders.OrderJson (Sample.order "o1" "pending"))
  /\ Reads.getOrderById "u9" "user" "o1" Sample.orders
     = Fail (Some 403%Z) "Not authorized to access this order".
Proof.
  destruct (owner_or_admin_access "u9" "admin" None "o1" Sample.orders
              (Sample.order "o1" "pending") eq_refl) as (_ & _ & Hyes & _).
  destruct (owner_or_admin_access "u9" "user" None "o1" Sample.orders
              (Sample.order "o1" "pending") eq_refl) as (_ & _ & _ & Hno).
  split.
  - apply Hyes. by right.
  - apply Hno; discriminate.
Defined.

(** * Further properties of checkout *)



(** A checkout whose [clearCart] is rejected: the reply is the error, the
    order is in the store and the cart still has its line. *)
Example checkout_clear_rejected :
  let after :=
    snd (Checkout.createOrder Fixtures.clearFails (Some "u1")
           Sample.checkoutBody "o9" (Sample.store Sample.pricedCart)) in
  fst (Checkout.createOrder Fixtures.clearFails (Some "u1")
         Sample.checkoutBody "o9" (Sample.store Sample.pricedCart))
  = Fail None "connection lost"
  /\ is_Some (Checkout.orders after !! "o9")
  /\ Checkout.carts after !! "u1" = Some Sample.pricedCart.
Proof. split; [reflexivity|]. split; [by eexists|reflexivity]. Qed.

(** X10.  A successful checkout stores the order it answers with under
    the new identifier, empties the cart of the user and touches no other
    cart and no other order; a second checkout by the same user is then
    refused with "Your cart is empty" and changes nothing. *)
Theorem checkout_empties_cart
    (env : Checkout.Env) (userId : string) (body : Checkout.Body)
    (newId : string) (st st' : Checkout.Store) (code : Z) (order : Order.t) :
  Checkout.createOrder env (Some userId) body newId st
  = (Respond code order, st') ->
  Cart.items <$> Checkout.carts st' !! userId = Some []
  /\ Checkout.orders st' !! newId = Some order
  /\ (forall other, other <> userId ->
        Checkout.carts st' !! other = Checkout.carts st !! other)
  /\ (forall id, id <> newId ->
        Checkout.orders st' !! id = Checkout.orders st !! id)
  /\ (forall env' body' newId',
        Checkout.createOrder env' (Some userId) body' newId' st'
        = (Fail (Some 400%Z) "Your cart is empty", st')).
Proof.
  intros Hrun.
  destruct (createOrder_succeeded _ _ _ _ _ _ _ _ Hrun)
    as (cart & Hcart & _ & _ & ->).
  simpl. rewrite !lookup_insert_eq. split; [done|]. split; [done|].
  split; [|split].
  - intros other Hne. by rewrite lookup_insert_ne.
  - intros id Hne. by rewrite lookup_insert_ne.
  - intros env' body' newId'. unfold Checkout.createOrder. simpl.
    by rewrite ?lookup_insert_eq.
Qed.

Lemma checkout_empties_cart_witness :
  Checkout.createOrder Fixtures.calm (Some "u1") Sample.checkoutBody "o10"
    (snd (Checkout.createOrder Fixtures.calm (Some "u1") Sample.checkoutBody
            "o9" (Sample.store Sample.pricedCart)))
  = (Fail (Some 400%Z) "Your cart is empty",
     snd (Checkout.createOrder Fixtures.calm (Some "u1") Sample.checkoutBody
            "o9" (Sample.store Sample.pricedCart))).
Proof.
  destruct (Checkout.createOrder Fixtures.calm (Some "u1") Sample.checkoutBody
              "o9" (Sample.store Sample.pricedCart)) as [reply st'] eqn:Hrun.
  destruct reply as [code order|code msg]; [|discriminate Hrun].
  destruct (checkout_empties_cart Fixtures.calm "u1" Sample.checkoutBody "o9"
              (Sample.store Sample.pricedCart) st' code order Hrun)
    as (_ & _ & _ & _ & Hagain).
  apply Hagain.
Defined.





(** X12.  The items of an order mirror the lines of the cart one to one
    and in order: each carries the SKU and the quantity of its line and the
    identifier of the line's product.  When the mapping fails instead, the
    error is that of the first line that fails, every line before it having
    resolved. *)
Theorem order_items_mirror_cart (items : list CartItem.t) :
  match Checkout.orderItems items with
  | inr built =>
      Forall2 (fun item i =>
                 Order.sku i = CartItem.sku item
                 /\ Order.quantity i = CartItem.quantity item
                 /\ Some (Order.product i)
                    = Product._id <$> CartItem.product item)
        items built
  | inl e =>
      exists before item after,
        items = before ++ item :: after
        /\ Checkout.orderItem item = inl e
        /\ Forall (fun line => exists i, Checkout.orderItem line = inr i) before
  end.
Proof.
  induction items as [|item rest IH]; simpl; [by constructor|].
  destruct (Checkout.orderItem item) as [e|i] eqn:Hitem.
  - exists [], item, rest. by repeat split.
  - destruct (Checkout.orderItems rest) as [e|built].
    + destruct IH as (before & line & after & -> & Hline & Hbefore).
      exists (item :: before), line, after. repeat split; [done|].
      constructor; [by exists i|done].
    + constructor; [|done]. unfold Checkout.orderItem in Hitem.
      destruct (CartItem.product item) as [p|]; [|done].
      destruct (Resolver.matchedOption _ _); [|done].
      by injection Hitem as <-.
Qed.

(** X13.  For a line without a stored price the enumeration and the
    checkout agree: the price the enumeration shows for it is the unit
    price an order would charge (0 when the option has no price), and the
    line raises the write-back exactly when that price is positive. *)
Theorem unpriced_line_enumeration_matches_checkout
    (item : CartItem.t) (i : Order.Item) (e : Enumeration.EnrichedItem)
    (corrected : bool) :
  Js.truthy (CartItem.price item) = false ->
  Checkout.orderItem item = inr i ->
  Enumeration.enrichItem item = Some (e, corrected) ->
  Enumeration.price e == default 0 (Order.price i)
  /\ Enumeration.quantity e = Order.quantity i
  /\ Enumeration.sku e = Order.sku i
  /\ (corrected = true <-> 0 < default 0 (Order.price i)).
Proof.
  intros Hmissing Hcheckout Henrich.
  unfold Checkout.orderItem in Hcheckout.
  unfold Enumeration.enrichItem in Henrich.
  destruct (CartItem.product item) as [p|]; [|done].
  unfold Resolver.matchedOption in Hcheckout.
  destruct (Resolver.resolve (Some p) (CartItem.sku item)) as [[v opt]|];
    simpl in *; [|done].
  rewrite (reconcile_missing item (Some opt) Hmissing) in Henrich.
  injection Hcheckout as <-. injection Henrich as <- <-. simpl.
  unfold Reconciler.optionPrice.
  split; [apply orNum_zero|]. split; [done|]. split; [done|].
  rewrite ltb_spec. by rewrite orNum_zero.
Qed.

Lemma unpriced_line_enumeration_matches_checkout_witness :
  default 0 (Enumeration.price <$> (fst <$> Enumeration.enrichItem Sample.itemA1))
  == 50.
Proof.
  destruct (Enumeration.enrichItem Sample.itemA1) as [[e c]|] eqn:He;
    [|vm_compute in He; discriminate He].
  exact (proj1 (unpriced_line_enumeration_matches_checkout Sample.itemA1
                  (Order.mkItem "p1" "A1" 2 (Some 50)) e c
                  eq_refl eq_refl He)).
Defined.

(** * Further properties of the cart enumeration *)


Lemma enrichLoop_spec (items : list CartItem.t)
    (acc es : list Enumeration.EnrichedItem) (t t' : Q) (f f' : bool) :
  Enumeration.enrichLoop items acc t f = Some (es, t', f') ->
  exists pairs : list (Enumeration.EnrichedItem * bool),
    Forall2 (fun item ec => Enumeration.enrichItem item = Some ec) items pairs
    /\ es = acc ++ pairs.*1
    /\ t' == t + foldr (fun e sum => Enumeration.totalPrice e + sum) 0 pairs.*1
    /\ f' = f || existsb id pairs.*2.
Proof.
  revert acc t f. induction items as [|item rest IH]; intros acc t f; simpl.
  - intros [= <- <- <-]. exists []. simpl.
    rewrite app_nil_r, orb_false_r.
    split; [constructor|]. split; [done|]. split; [ring|done].
  - destruct (Enumeration.enrichItem item) as [[e c]|] eqn:He; [|done].
    intros Hrest. destruct (IH _ _ _ Hrest) as (pairs & Hall & -> & Ht & ->).
    exists ((e, c) :: pairs). csimpl.
    split; [by constructor|]. split; [by rewrite <- app_assoc|].
    split; [rewrite Ht; ring | by rewrite orb_assoc].
Qed.

Lemma sumQuantities_from (items : list CartItem.t) (start : Z) :
  fold_left (fun sum item => (sum + CartItem.quantity item)%Z) items start
  = (start + foldr Z.add 0%Z (CartItem.quantity <$> items))%Z.
Proof.
  revert start. induction items as [|item rest IH]; intros start; csimpl.
  - lia.
  - rewrite IH. lia.
Qed.

Lemma applyCorrections_quantities (items : list CartItem.t)
    (es : list Enumeration.EnrichedItem) :
  CartItem.quantity <$> Enumeration.applyCorrections items es
  = CartItem.quantity <$> items.
Proof.
  unfold Enumeration.applyCorrections. rewrite fmap_imap.
  rewrite <- (imap_const CartItem.quantity items).
  apply imap_ext. intros i item _. simpl.
  destruct (es !! i) as [e|]; [|done]. by destruct (_ && _).
Qed.



Lemma processCart_header (save : Enumeration.SaveOutcome) (cart : Cart.t)
    (fx fx' : Enumeration.Effects) (lc : Enumeration.LocalizedCart) :
  Enumeration.processCart save cart fx = (Some lc, fx') ->
  Enumeration.cartId lc = Cart._id cart
  /\ Enumeration.user lc = Cart.user cart
  /\ Enumeration.cartTotalItems lc
     = Enumeration.sumQuantities (Cart.items cart).
Proof.
  unfold Enumeration.processCart.
  destruct (Enumeration.enrichLoop _ _ _ _) as [[[es total] flag]|]; [|done].
  intros [= <- _]. simpl. split; [done|]. split; [done|].
  unfold Enumeration.sumQuantities. rewrite !sumQuantities_from.
  destruct flag; simpl; [|done]. by rewrite applyCorrections_quantities.
Qed.

Lemma mapCarts_spec (save : Enumeration.SaveOutcome) (cs : list Cart.t)
    (fx fx' : Enumeration.Effects) (lcs : list Enumeration.LocalizedCart) :
  Enumeration.mapCarts save cs fx = (Some lcs, fx') ->
  Forall2 (fun cart lc =>
             exists f1 f2, Enumeration.processCart save cart f1 = (Some lc, f2))
    cs lcs.
Proof.
  revert fx lcs. induction cs as [|cart rest IH]; intros fx lcs; simpl.
  - intros [= <- _]. constructor.
  - destruct (Enumeration.processCart save cart fx) as [[lc|] g] eqn:Hcart;
      [|done].
    destruct (Enumeration.mapCarts save rest g) as [[tail|] h] eqn:Hrest;
      [|done].
    intros [= <- <-]. constructor; [by exists fx, g|]. by eapply IH.
Qed.

(** X15.  The summary of an enumeration agrees with the carts it lists:
    there is one listed cart per stored cart, in order and with the same
    identifier and owner; [totalCarts] is their number, [totalItems] is the
    sum of the carts' own [totalItems], and [totalActiveCarts] does not
    exceed [totalCarts]. *)
Theorem enumeration_summary_consistent
    (save : Enumeration.SaveOutcome) (cs : list Cart.t)
    (data : Enumeration.CartsData) (fx : Enumeration.Effects) :
  Enumeration.getAllCartsData save cs = (Some data, fx) ->
  Forall2 (fun cart lc =>
             Enumeration.cartId lc = Cart._id cart
             /\ Enumeration.user lc = Cart.user cart)
    cs (Enumeration.carts data)
  /\ Enumeration.totalCarts (Enumeration.summary data)
     = length (Enumeration.carts data)
  /\ Enumeration.totalItems (Enumeration.summary data)
     = Views.sumTotalItems (Enumeration.carts data)
  /\ (Enumeration.totalActiveCarts (Enumeration.summary data)
      <= Enumeration.totalCarts (Enumeration.summary data))%nat.
Proof.
  unfold Enumeration.getAllCartsData.
  destruct (Enumeration.mapCarts save cs _) as [[lcs|] fx'] eqn:Hmap; [|done].
  intros [= <- _]. simpl.
  pose proof (mapCarts_spec _ _ _ _ _ Hmap) as Hall.
  split; [|split; [|split]].
  - eapply Forall2_impl; [exact Hall|]. intros cart lc (f1 & f2 & Hrun).
    by destruct (processCart_header _ _ _ _ _ Hrun) as (? & ? & _).
  - by apply Forall2_length in Hall.
  - unfold Views.sumTotalItems. generalize 0%Z. clear Hmap.
    induction Hall as [|cart lc ? ? (f1 & f2 & Hrun) _ IH]; intros start;
      simpl; [done|].
    destruct (processCart_header _ _ _ _ _ Hrun) as (_ & _ & ->). apply IH.
  - apply length_filter.
Qed.

Lemma enumeration_summary_consistent_witness :
  match fst (Enumeration.getAllCartsData Sample.saveOk
               [Sample.cart; Fixtures.unpricedCart]) with
  | Some data =>
      Enumeration.totalItems (Enumeration.summary data)
      = Views.sumTotalItems (Enumeration.carts data)
  | None => False
  end.
Proof.
  destruct (Enumeration.getAllCartsData Sample.saveOk
              [Sample.cart; Fixtures.unpricedCart]) as [[data|] fx] eqn:Hrun;
    [|vm_compute in Hrun; discriminate Hrun].
  exact (proj1 (proj2 (proj2 (enumeration_summary_consistent _ _ _ _ Hrun)))).
Defined.

Lemma correction_at (items : list CartItem.t)
    (es : list Enumeration.EnrichedItem) (i : nat) :
  Enumeration.applyCorrections items es !! i
  = (fun item =>
       match es !! i with
       | Some e =>
           if Js.ltb 0 (Enumeration.price e)
              && Enumeration.storedZero (CartItem.price item)
           then CartItem.setPrice item (Enumeration.price e)
           else item
       | None => item
       end) <$> items !! i.
Proof. unfold Enumeration.applyCorrections. by rewrite list_lookup_imap. Qed.

Lemma storedZero_positive (p : Q) :
  Js.ltb 0 p = true -> Enumeration.storedZero (Some p) = false.
Proof. intros Hp. simpl. apply isZero_pos. by apply ltb_spec. Qed.

(** X16.  The write-back changes nothing but prices, and only prices
    stored as 0: the corrected list has the lines of the cart in order, a
    line is either untouched or had a stored price of 0 and now carries a
    positive price, and applying the same corrections again changes
    nothing. *)
Theorem corrections_touch_only_zero_prices
    (items : list CartItem.t) (es : list Enumeration.EnrichedItem) :
  Forall2 (fun item item' =>
             item' = item
             \/ (Enumeration.storedZero (CartItem.price item) = true
                 /\ exists p, 0 < p /\ item' = CartItem.setPrice item p))
    items (Enumeration.applyCorrections items es)
  /\ Enumeration.applyCorrections (Enumeration.applyCorrections items es) es
     = Enumeration.applyCorrections items es.
Proof.
  split.
  - apply Forall2_same_length_lookup_2.
    + unfold Enumeration.applyCorrections. by rewrite length_imap.
    + intros i item item' Hitem. rewrite correction_at, Hitem. simpl.
      intros [= <-]. destruct (es !! i) as [e|]; [|by left].
      destruct (Js.ltb 0 (Enumeration.price e)) eqn:Hpos; [|by left].
      destruct (Enumeration.storedZero _) eqn:Hzero; [|by left].
      right. split; [done|]. exists (Enumeration.price e).
      split; [by apply ltb_spec|done].
  - apply list_eq. intros i. rewrite !correction_at.
    destruct (items !! i) as [item|]; [|done]. simpl. f_equal.
    destruct (es !! i) as [e|]; [|done].
    destruct (Js.ltb 0 (Enumeration.price e)) eqn:Hpos; [|done].
    destruct (Enumeration.storedZero (CartItem.price item)) eqn:Hzero; simpl.
    + pose proof (storedZero_positive _ Hpos) as Hz. simpl in Hz.
      by rewrite Hz.
    + by rewrite Hzero.
Qed.

Lemma populateName_unresolved (cart : Cart.t) (item : CartItem.t) :
  item ∈ Cart.items (Enumeration.populateName cart) ->
  Resolver.resolve (CartItem.product item) (CartItem.sku item) = None.
Proof.
  unfold Enumeration.populateName. simpl.
  intros Hin. apply list_elem_of_In, in_map_iff in Hin as (orig & <- & _).
  simpl. by destruct (CartItem.product orig).
Qed.

Lemma enrichLoop_flag (items : list CartItem.t)
    (acc es : list Enumeration.EnrichedItem) (t t' : Q) (f f' : bool) :
  (forall item, item ∈ items ->
     Resolver.resolve (CartItem.product item) (CartItem.sku item) = None) ->
  Enumeration.enrichLoop items acc t f = Some (es, t', f') ->
  f' = f.
Proof.
  revert acc t f. induction items as [|item rest IH]; intros acc t f Hnone;
    simpl.
  - by intros [= _ _ <-].
  - assert (Resolver.resolve (CartItem.product item) (CartItem.sku item) = None)
      as Hitem by (apply Hnone; left).
    unfold Enumeration.enrichItem. rewrite Hitem. simpl.
    unfold Reconciler.reconcile.
    destruct (Js.isZero _); destruct (CartItem.product item); try done;
      intros Hrest; apply IH in Hrest; try (by rewrite Hrest, orb_false_r);
      intros ? ?; apply Hnone; by right.
Qed.

Lemma mapCarts_no_write_back (save : Enumeration.SaveOutcome)
    (cs : list Cart.t) (fx : Enumeration.Effects) :
  snd (Enumeration.mapCarts save (map Enumeration.populateName cs) fx) = fx.
Proof.
  revert fx. induction cs as [|cart rest IH]; intros fx; simpl; [done|].
  unfold Enumeration.processCart.
  destruct (Enumeration.enrichLoop _ _ _ _) as [[[es total] flag]|] eqn:Hloop;
    [|done].
  apply enrichLoop_flag in Hloop as ->;
    [|intros item; apply populateName_unresolved].
  specialize (IH fx).
  by destruct (Enumeration.mapCarts save _ fx) as [[lcs|] fx'']; simpl in *.
Qed.

(** X17.  [getAllCarts] never repairs a price: it populates the products
    with their name only, so no SKU resolves, no cart raises the write-back,
    and whatever the carts are nothing is saved and nothing is logged. *)
Theorem getAllCarts_never_writes_back
    (role : string) (save : Enumeration.SaveOutcome) (cs : list Cart.t) :
  snd (Enumeration.getAllCarts role save cs) = Enumeration.noFx.
Proof.
  unfold Enumeration.getAllCarts, Enumeration.getAllCartsData.
  destruct (negb _); [done|].
  pose proof (mapCarts_no_write_back save cs Enumeration.noFx) as H.
  by destruct (Enumeration.mapCarts save _ _) as [[lcs|] fx]; simpl in *.
Qed.

Lemma cart_setItems_same (cart : Cart.t) :
  Cart.setItems cart (Cart.items cart) = cart.
Proof. by destruct cart. Qed.

(** X18.  The write-back does not repair a price that is absent rather
    than 0: for a cart whose lines all lack a stored price the enumeration
    shows the option prices and raises the write-back, and what it hands to
    [save] is the cart unchanged. *)
Theorem absent_prices_saved_unchanged
    (save : Enumeration.SaveOutcome) (cart : Cart.t) (fx : Enumeration.Effects)
    (es : list Enumeration.EnrichedItem) (total : Q) :
  Forall (fun item => CartItem.price item = None) (Cart.items cart) ->
  Enumeration.enrichLoop (Cart.items cart) [] 0 false = Some (es, total, true) ->
  Enumeration.processCart save cart fx
  = (Some (Enumeration.mkCart (Cart._id cart) (Cart.user cart) es total
             (Enumeration.sumQuantities (Cart.items cart))),
     Enumeration.saveAndCatch save cart fx).
Proof.
  intros Hnone Hloop. unfold Enumeration.processCart. rewrite Hloop.
  assert (Enumeration.applyCorrections (Cart.items cart) es = Cart.items cart)
    as ->; [|by rewrite cart_setItems_same].
  apply list_eq. intros i. rewrite correction_at.
  destruct (Cart.items cart !! i) as [item|] eqn:Hitem; [|done]. simpl.
  f_equal. rewrite Forall_lookup in Hnone. rewrite (Hnone i item Hitem).
  simpl. destruct (es !! i); [|done]. by rewrite andb_false_r.
Qed.

Lemma absent_prices_saved_unchanged_witness :
  snd (Enumeration.processCart Sample.saveOk Fixtures.unpricedCart
         Enumeration.noFx)
  = Enumeration.mkFx [Fixtures.unpricedCart] [].
Proof.
  destruct (Enumeration.enrichLoop (Cart.items Fixtures.unpricedCart) [] 0 false)
    as [[[es total] flag]|] eqn:Hloop; [|vm_compute in Hloop; discriminate Hloop].
  assert (flag = true) as ->.
  { vm_compute in Hloop. by injection Hloop as _ _ <-. }
  rewrite (absent_prices_saved_unchanged Sample.saveOk Fixtures.unpricedCart
             Enumeration.noFx es total); [done| |done].
  repeat constructor.
Defined.

Lemma applyCorrections_zip (items : list CartItem.t)
    (es : list Enumeration.EnrichedItem) :
  length items = length es ->
  Enumeration.applyCorrections items es
  = zip_with (fun item e =>
                if Js.ltb 0 (Enumeration.price e)
                   && Enumeration.storedZero (CartItem.price item)
                then CartItem.setPrice item (Enumeration.price e)
                else item) items es.
Proof.
  intros Hlen. apply list_eq. intros i. rewrite correction_at.
  rewrite lookup_zip_with.
  destruct (items !! i) as [item|] eqn:Hitem; simpl; [|done].
  destruct (es !! i) as [e|] eqn:He; simpl; [done|].
  apply lookup_lt_Some in Hitem. apply lookup_ge_None in He. lia.
Qed.

Lemma reconcile_corrected (item : CartItem.t) (matched : option Opt.t)
    (price : Q) (corrected : bool) :
  is_Some (CartItem.price item) ->
  Reconciler.reconcile item matched = (price, corrected) ->
  Reconciler.reconcile
    (if Js.ltb 0 price && Enumeration.storedZero (CartItem.price item)
     then CartItem.setPrice item price
     else item) matched
  = (price, false).
Proof.
  intros [x Hx]. unfold Reconciler.reconcile. rewrite Hx. simpl.
  destruct (Js.isZero x) eqn:Hzero.
  - change (Js.isZero 0) with true. destruct matched as [opt|].
    + intros [= <- <-]. rewrite andb_true_r.
      destruct (Js.ltb 0 (Reconciler.optionPrice opt)) eqn:Hpos; simpl.
      * apply ltb_spec, isZero_pos in Hpos. by rewrite !Hpos.
      * rewrite Hx. simpl. rewrite Hzero. by change (Js.isZero 0) with true.
    + intros [= <- <-]. simpl. rewrite Hx. simpl. by rewrite Hzero.
  - rewrite Hzero. intros Hrec.
    assert ((price, corrected) = (x, false)) as [= -> ->]
      by (by destruct matched).
    rewrite andb_false_r, Hx. simpl. rewrite !Hzero. by destruct matched.
Qed.

Lemma enrichItem_corrected (item : CartItem.t) (e : Enumeration.EnrichedItem)
    (corrected : bool) :
  is_Some (CartItem.price item) ->
  Enumeration.enrichItem item = Some (e, corrected) ->
  Enumeration.enrichItem
    (if Js.ltb 0 (Enumeration.price e)
        && Enumeration.storedZero (CartItem.price item)
     then CartItem.setPrice item (Enumeration.price e)
     else item)
  = Some (e, false).
Proof.
  intros Hsome He. unfold Enumeration.enrichItem in He.
  destruct (Reconciler.reconcile item _) as [price flag] eqn:Hrec.
  destruct (CartItem.product item) as [p|] eqn:Hp; [|done].
  injection He as <- <-. simpl.
  pose proof (reconcile_corrected item _ price flag Hsome Hrec) as Hnew.
  unfold Enumeration.enrichItem.
  destruct (Js.ltb 0 price && Enumeration.storedZero (CartItem.price item));
    simpl in *; rewrite Hp in *; simpl in *; by rewrite Hnew.
Qed.

Lemma enrichLoop_corrected (items : list CartItem.t)
    (pairs : list (Enumeration.EnrichedItem * bool)) :
  Forall2 (fun item ec => Enumeration.enrichItem item = Some ec) items pairs ->
  Forall (fun item => is_Some (CartItem.price item)) items ->
  forall acc t f f0 es t' f',
    Enumeration.enrichLoop items acc t f = Some (es, t', f') ->
    Enumeration.enrichLoop
      (zip_with (fun item e =>
                   if Js.ltb 0 (Enumeration.price e)
                      && Enumeration.storedZero (CartItem.price item)
                   then CartItem.setPrice item (Enumeration.price e)
                   else item) items pairs.*1)
      acc t f0
    = Some (es, t', f0).
Proof.
  induction 1 as [|item [e c] rest pairs He _ IH]; intros Hsome acc t f f0 es t' f';
    csimpl.
  - by intros [= <- <- _].
  - apply Forall_cons in Hsome as [Hitem Hrest]. rewrite He.
    rewrite (enrichItem_corrected item e c Hitem He). rewrite orb_false_r.
    by apply IH.
Qed.

(** X19.  The write-back converges when the missing prices are stored as
    0: if every line of a cart has a stored price, then enumerating the
    cart as the write-back leaves it gives the same enriched cart and
    raises no further write-back, so nothing more is saved or logged. *)
Theorem write_back_converges
    (save save' : Enumeration.SaveOutcome) (cart : Cart.t)
    (fx fx' fx2 : Enumeration.Effects) (lc : Enumeration.LocalizedCart) :
  Forall (fun item => is_Some (CartItem.price item)) (Cart.items cart) ->
  Enumeration.processCart save cart fx = (Some lc, fx') ->
  Enumeration.processCart save'
    (Cart.setItems cart
       (Enumeration.applyCorrections (Cart.items cart) (Enumeration.items lc)))
    fx2
  = (Some lc, fx2).
Proof.
  intros Hsome. unfold Enumeration.processCart at 1.
  destruct (Enumeration.enrichLoop _ _ _ _) as [[[es total] flag]|] eqn:Hloop;
    [|done].
  intros [= <- _]. simpl.
  destruct (enrichLoop_spec _ _ _ _ _ _ _ Hloop) as (pairs & Hall & Hes & _).
  simpl in Hes. subst es.
  unfold Enumeration.processCart. simpl.
  rewrite applyCorrections_zip
    by (rewrite length_fmap; by apply Forall2_length in Hall).
  rewrite (enrichLoop_corrected _ _ Hall Hsome _ _ _ false _ _ _ Hloop).
  do 3 f_equal. destruct flag; [done|]. simpl.
  rewrite <- applyCorrections_zip
    by (rewrite length_fmap; by apply Forall2_length in Hall).
  unfold Enumeration.sumQuantities. rewrite !sumQuantities_from.
  by rewrite applyCorrections_quantities.
Qed.

Lemma write_back_converges_witness :
  snd (Enumeration.processCart Sample.saveFails Fixtures.repairedCart
         Enumeration.noFx)
  = Enumeration.noFx.
Proof.
  destruct (Enumeration.processCart Sample.saveOk Sample.cart Enumeration.noFx)
    as [[lc|] fx'] eqn:Hrun; [|vm_compute in Hrun; discriminate Hrun].
  pose proof (write_back_converges Sample.saveOk Sample.saveFails Sample.cart
                Enumeration.noFx fx' Enumeration.noFx lc) as Hnext.
  assert (Cart.setItems Sample.cart
            (Enumeration.applyCorrections (Cart.items Sample.cart)
               (Enumeration.items lc))
          = Fixtures.repairedCart) as Hwritten.
  { vm_compute in Hrun. injection Hrun as <- _. reflexivity. }
  rewrite Hwritten in Hnext. rewrite Hnext; [done| |done].
  repeat constructor; by eexists.
Defined.

(** * Properties of the bulk repair *)

Lemma priceMissing_falsy (p : option Q) :
  Reconciler.priceMissing p = negb (Js.truthy p).
Proof.
  destruct p as [x|]; simpl; [|done]. rewrite negb_involutive. apply orb_diag.
Qed.

Lemma fixItem_reconcile (item : CartItem.t) (matched : option Opt.t) :
  Reconciler.reconcile (fst (Reconciler.fixItem item matched)) matched
  = (fst (Reconciler.reconcile item matched), false).
Proof.
  unfold Reconciler.fixItem. rewrite priceMissing_falsy.
  destruct (Js.truthy (CartItem.price item)) eqn:Htruthy; simpl.
  - unfold Reconciler.reconcile.
    destruct (CartItem.price item) as [x|]; [|done]. simpl in *.
    apply negb_true_iff in Htruthy. rewrite !Htruthy. by destruct matched.
  - destruct matched as [opt|]; simpl;
      [|by rewrite (reconcile_missing item None Htruthy)].
    rewrite (reconcile_missing item (Some opt) Htruthy). simpl.
    destruct (Js.ltb 0 (Reconciler.optionPrice opt)) eqn:Hpos; simpl.
    + unfold Reconciler.reconcile. simpl.
      apply ltb_spec, isZero_pos in Hpos. by rewrite !Hpos.
    + rewrite (reconcile_missing item (Some opt) Htruthy). by rewrite Hpos.
Qed.

Lemma fixItem_fields (item : CartItem.t) (matched : option Opt.t) :
  let item' := fst (Reconciler.fixItem item matched) in
  CartItem._id item' = CartItem._id item
  /\ CartItem.product item' = CartItem.product item
  /\ CartItem.sku item' = CartItem.sku item
  /\ CartItem.quantity item' = CartItem.quantity item
  /\ CartItem.notes item' = CartItem.notes item.
Proof.
  unfold Reconciler.fixItem.
  destruct (Reconciler.priceMissing _); [|done].
  destruct matched; [|done]. by destruct (Js.ltb _ _).
Qed.

Lemma fixItem_again (item : CartItem.t) (matched : option Opt.t) :
  Reconciler.fixItem (fst (Reconciler.fixItem item matched)) matched
  = (fst (Reconciler.fixItem item matched), false).
Proof.
  unfold Reconciler.fixItem at 2 3.
  destruct (Reconciler.priceMissing (CartItem.price item)) eqn:Hmissing; simpl.
  - destruct matched as [opt|]; simpl.
    + destruct (Js.ltb 0 (Reconciler.optionPrice opt)) eqn:Hpos; simpl.
      * unfold Reconciler.fixItem. simpl.
        apply ltb_spec, isZero_pos in Hpos. unfold Js.truthy. by rewrite Hpos.
      * unfold Reconciler.fixItem. by rewrite Hmissing, Hpos.
    + unfold Reconciler.fixItem. by rewrite Hmissing.
  - unfold Reconciler.fixItem. by rewrite Hmissing.
Qed.

Lemma repairItem_again (item : CartItem.t) :
  Repair.repairItem (fst (Repair.repairItem item))
  = (fst (Repair.repairItem item), false).
Proof.
  unfold Repair.repairItem.
  destruct (fixItem_fields item
              (Resolver.matchedOption (CartItem.product item)
                 (CartItem.sku item))) as (_ & -> & -> & _).
  apply fixItem_again.
Qed.

Lemma fixLoop_spec (items : list CartItem.t) (flag : bool) (n : nat) :
  Repair.fixLoop items flag n
  = (fst <$> (Repair.repairItem <$> items),
     flag || existsb (fun item => snd (Repair.repairItem item)) items,
     (n + length (List.filter (fun item => snd (Repair.repairItem item)) items))%nat).
Proof.
  revert flag n. induction items as [|item rest IH]; intros flag n; csimpl.
  - by rewrite orb_false_r, Nat.add_0_r.
  - destruct (Repair.repairItem item) as [item' changed] eqn:Hitem.
    rewrite IH. simpl. rewrite orb_assoc.
    destruct changed; simpl; repeat f_equal; lia.
Qed.

Lemma repaired_items (cart : Cart.t) :
  Cart.items (Repair.repaired cart)
  = fst <$> (Repair.repairItem <$> Cart.items cart).
Proof. done. Qed.

Lemma enrichItem_repaired (item : CartItem.t) (e : Enumeration.EnrichedItem)
    (corrected : bool) :
  Enumeration.enrichItem item = Some (e, corrected) ->
  Enumeration.enrichItem (fst (Repair.repairItem item)) = Some (e, false).
Proof.
  unfold Repair.repairItem, Enumeration.enrichItem.
  set (matched := Resolver.matchedOption _ _).
  destruct (fixItem_fields item matched) as (Hid & Hp & Hsku & Hq & Hnotes).
  simpl in *. rewrite Hid, Hp, Hsku, Hq, Hnotes.
  fold (Resolver.matchedOption (CartItem.product item) (CartItem.sku item)).
  fold matched. rewrite fixItem_reconcile.
  destruct (Reconciler.reconcile item matched) as [price flag].
  destruct (CartItem.product item); [|done]. by intros [= <- _].
Qed.

Lemma enrichLoop_repaired (items : list CartItem.t) :
  forall acc t f f0 es t' f',
    Enumeration.enrichLoop items acc t f = Some (es, t', f') ->
    Enumeration.enrichLoop (fst <$> (Repair.repairItem <$> items)) acc t f0
    = Some (es, t', f0).
Proof.
  induction items as [|item rest IH]; intros acc t f f0 es t' f'; csimpl.
  - by intros [= <- <- _].
  - destruct (Enumeration.enrichItem item) as [[e c]|] eqn:He; [|done].
    rewrite (enrichItem_repaired item e c He), orb_false_r. by apply IH.
Qed.

Lemma repaired_quantities (items : list CartItem.t) :
  CartItem.quantity <$> (fst <$> (Repair.repairItem <$> items))
  = CartItem.quantity <$> items.
Proof.
  induction items as [|item rest IH]; csimpl; [done|]. rewrite IH. f_equal.
  unfold Repair.repairItem.
  by destruct (fixItem_fields item
                 (Resolver.matchedOption (CartItem.product item)
                    (CartItem.sku item))) as (_ & _ & _ & -> & _).
Qed.

(** X20.  The bulk repair agrees with the enumeration: a cart repaired by
    [fixCartPrices] is enumerated with the same items, prices and totals as
    before the repair, and raises no write-back any more, whether its
    missing prices were 0 or absent. *)
Theorem repaired_cart_needs_no_write_back
    (save save' : Enumeration.SaveOutcome) (cart : Cart.t)
    (fx fx' fx2 : Enumeration.Effects) (lc : Enumeration.LocalizedCart) :
  Enumeration.processCart save cart fx = (Some lc, fx') ->
  Enumeration.processCart save' (Repair.repaired cart) fx2 = (Some lc, fx2).
Proof.
  unfold Enumeration.processCart at 1.
  destruct (Enumeration.enrichLoop _ _ _ _) as [[[es total] flag]|] eqn:Hloop;
    [|done].
  intros [= <- _]. unfold Enumeration.processCart. rewrite repaired_items.
  rewrite (enrichLoop_repaired _ _ _ _ false _ _ _ Hloop).
  do 3 f_equal. unfold Enumeration.sumQuantities. rewrite !sumQuantities_from.
  cbn [Cart.items Repair.repaired Cart.setItems]. rewrite repaired_quantities.
  destruct flag; simpl; [|done]. by rewrite applyCorrections_quantities.
Qed.

Lemma repaired_cart_needs_no_write_back_witness :
  snd (Enumeration.processCart Sample.saveFails
         (Repair.repaired Fixtures.unpricedCart) Enumeration.noFx)
  = Enumeration.noFx.
Proof.
  destruct (Enumeration.processCart Sample.saveOk Fixtures.unpricedCart
              Enumeration.noFx) as [[lc|] fx'] eqn:Hrun;
    [|vm_compute in Hrun; discriminate Hrun].
  by rewrite (repaired_cart_needs_no_write_back Sample.saveOk Sample.saveFails
                Fixtures.unpricedCart Enumeration.noFx fx' Enumeration.noFx lc
                Hrun).
Defined.

Lemma fixCarts_spec (save : Enumeration.SaveOutcome) (cs : list Cart.t)
    (uc ui : nat) (saved saved' : list Cart.t) (report : Repair.Report) :
  Repair.fixCarts save cs uc ui saved = (inr report, saved') ->
  saved' = saved ++ (Repair.repaired <$> List.filter Repair.needsRepair cs)
  /\ Repair.updatedCarts report
     = (uc + length (List.filter Repair.needsRepair cs))%nat
  /\ Repair.updatedItems report = (ui + sum_list (Repair.repairs <$> cs))%nat.
Proof.
  revert uc ui saved. induction cs as [|cart rest IH]; intros uc ui saved;
    csimpl.
  - intros [= <- <-]. simpl. rewrite app_nil_r. repeat split; lia.
  - rewrite fixLoop_spec. simpl.
    fold (Repair.needsRepair cart). fold (Repair.repairs cart).
    fold (Repair.repaired cart).
    destruct (Repair.needsRepair cart); csimpl.
    + destruct (save (Repair.repaired cart)); [done|].
      intros Hrest. apply IH in Hrest as (-> & -> & ->).
      rewrite <- app_assoc. repeat split; simpl; lia.
    + intros Hrest. apply IH in Hrest as (-> & -> & ->).
      repeat split; lia.
Qed.

Lemma needsRepair_repairs (cart : Cart.t) :
  Repair.needsRepair cart = true -> (1 <= Repair.repairs cart)%nat.
Proof.
  unfold Repair.needsRepair, Repair.repairs.
  induction (Cart.items cart) as [|item rest IH]; simpl; [done|].
  destruct (snd (Repair.repairItem item)); simpl; [lia|done].
Qed.

(** X21.  What [fixCartPrices] reports when it succeeds: it has saved
    exactly the carts in which at least one line was repaired, each in its
    repaired form and in the order of the query; [updatedCarts] is their
    number, [updatedItems] the number of repaired lines over all carts, and
    so [updatedCarts] never exceeds [updatedItems]. *)
Theorem repair_report
    (role : string) (save : Enumeration.SaveOutcome) (cs : list Cart.t)
    (code : Z) (report : Repair.Report) (saved : list Cart.t) :
  Repair.fixCartPrices role save cs = (Respond code report, saved) ->
  saved = Repair.repaired <$> List.filter Repair.needsRepair cs
  /\ Repair.updatedCarts report = length saved
  /\ Repair.updatedItems report = sum_list (Repair.repairs <$> cs)
  /\ (Repair.updatedCarts report <= Repair.updatedItems report)%nat.
Proof.
  unfold Repair.fixCartPrices. destruct (negb _); [done|].
  destruct (Repair.fixCarts save cs 0 0 []) as [[err|r] saved'] eqn:Hrun;
    [done|].
  intros [= _ <- <-]. apply fixCarts_spec in Hrun as (-> & Hc & Hi).
  simpl in *. rewrite Hc, Hi, length_fmap. repeat split.
  clear. induction cs as [|cart rest IH]; csimpl; [done|].
  destruct (Repair.needsRepair cart) eqn:Hneeds; simpl; [|lia].
  apply needsRepair_repairs in Hneeds. lia.
Qed.

Lemma repair_report_witness :
  Repair.fixCartPrices "admin" Sample.saveOk [Sample.cart; Sample.orphanCart]
  = (Respond 200%Z (Repair.mkReport 1 1), [Fixtures.repairedCart]).
Proof.
  destruct (Repair.fixCartPrices "admin" Sample.saveOk
              [Sample.cart; Sample.orphanCart]) as [[code report|? ?] saved]
    eqn:Hrun; [|vm_compute in Hrun; discriminate Hrun].
  destruct (repair_report _ _ _ _ _ _ Hrun) as (-> & Hc & Hi & _).
  destruct report as [uc ui]. simpl in Hc, Hi. subst uc ui.
  vm_compute in Hrun. injection Hrun as <-. reflexivity.
Defined.

Lemma repaired_needs_nothing (cart : Cart.t) :
  Repair.needsRepair (Repair.repaired cart) = false.
Proof.
  unfold Repair.needsRepair. rewrite repaired_items.
  induction (Cart.items cart) as [|item rest IH]; csimpl; [done|].
  by rewrite repairItem_again, IH.
Qed.

Lemma fixCarts_nothing (save : Enumeration.SaveOutcome) (cs : list Cart.t)
    (uc ui : nat) (saved : list Cart.t) :
  Forall (fun cart => Repair.needsRepair cart = false) cs ->
  Repair.fixCarts save cs uc ui saved = (inr (Repair.mkReport uc ui), saved).
Proof.
  intros Hall. revert uc ui saved.
  induction Hall as [|cart rest Hcart _ IH]; intros uc ui saved; simpl;
    [done|].
  rewrite fixLoop_spec. simpl. fold (Repair.needsRepair cart).
  rewrite Hcart.
  assert (length (List.filter (fun item => snd (Repair.repairItem item))
                    (Cart.items cart)) = 0%nat) as ->.
  { unfold Repair.needsRepair in Hcart.
    induction (Cart.items cart) as [|item items IHi]; simpl in *; [done|].
    apply orb_false_iff in Hcart as [-> Hrest]. by apply IHi. }
  rewrite Nat.add_0_r. apply IH.
Qed.

(** X22.  The bulk repair is idempotent: run on carts it has already
    repaired it finds nothing to do, reports 0 items in 0 carts and saves
    nothing, whatever the store would answer. *)
Theorem repair_is_idempotent
    (save : Enumeration.SaveOutcome) (cs : list Cart.t) :
  Repair.fixCartPrices "admin" save (Repair.repaired <$> cs)
  = (Respond 200%Z (Repair.mkReport 0 0), []).
Proof.
  unfold Repair.fixCartPrices. simpl. rewrite fixCarts_nothing; [done|].
  apply Forall_fmap, Forall_forall. intros cart _.
  apply repaired_needs_nothing.
Qed.

(** X23.  Unlike the write-back of the enumeration, a rejected save of the
    bulk repair is surfaced and not rolled back: at the first cart whose
    save is rejected the handler fails with that error, the carts repaired
    before it stay saved and the carts after it are not looked at. *)
Theorem repair_save_failure_surfaced
    (save : Enumeration.SaveOutcome) (before after : list Cart.t)
    (cart : Cart.t) (err : string) :
  Repair.needsRepair cart = true ->
  save (Repair.repaired cart) = Some err ->
  Forall (fun c =>
            Repair.needsRepair c = true -> save (Repair.repaired c) = None)
    before ->
  Repair.fixCartPrices "admin" save (before ++ cart :: after)
  = (Fail None err, Repair.repaired <$> List.filter Repair.needsRepair before).
Proof.
  intros Hneeds Hreject Hbefore. unfold Repair.fixCartPrices. simpl.
  assert (forall uc ui saved,
            Repair.fixCarts save (before ++ cart :: after) uc ui saved
            = (inl err,
               saved ++ (Repair.repaired
                           <$> List.filter Repair.needsRepair before)))
    as ->; [|done].
  induction Hbefore as [|c rest Hc _ IH]; intros uc ui saved; csimpl.
  - rewrite fixLoop_spec. simpl. fold (Repair.needsRepair cart).
    fold (Repair.repaired cart). rewrite Hneeds, Hreject.
    by rewrite app_nil_r.
  - rewrite fixLoop_spec. simpl. fold (Repair.needsRepair c).
    fold (Repair.repaired c).
    destruct (Repair.needsRepair c); csimpl.
    + rewrite (Hc eq_refl), IH. by rewrite <- app_assoc.
    + apply IH.
Qed.

Lemma repair_save_failure_surfaced_witness :
  Repair.fixCartPrices "admin" (Fixtures.saveExcept "c1")
    [Fixtures.unpricedCart; Sample.cart; Sample.orphanCart]
  = (Fail None "connection lost", [Repair.repaired Fixtures.unpricedCart]).
Proof.
  apply (repair_save_failure_surfaced (Fixtures.saveExcept "c1")
           [Fixtures.unpricedCart] [Sample.orphanCart] Sample.cart
           "connection lost"); [reflexivity | reflexivity |].
  repeat constructor.
Defined.

(** * Properties of the admin views *)





Lemma lines_populated_or_orphan (items : list CartItem.t) :
  Forall (fun item => is_Some (CartItem.product item)) items
  \/ Exists (fun item => CartItem.product item = None) items.
Proof.
  induction items as [|item rest [IH|IH]].
  - left. constructor.
  - destruct (CartItem.product item) as [p|] eqn:Hp.
    + left. constructor; [by exists p|done].
    + right. by left.
  - right. by right.
Qed.

Lemma carts_populated_or_orphan (cs : list Cart.t) :
  Forall (fun cart =>
            Forall (fun item => is_Some (CartItem.product item))
              (Cart.items cart)) cs
  \/ Exists (fun cart =>
               Exists (fun item => CartItem.product item = None)
                 (Cart.items cart)) cs.
Proof.
  induction cs as [|cart rest [IH|IH]].
  - left. constructor.
  - destruct (lines_populated_or_orphan (Cart.items cart)) as [H|H].
    + left. by constructor.
    + right. by left.
  - right. by right.
Qed.

Lemma enrichLoop_orphan (items : list CartItem.t) :
  Exists (fun item => CartItem.product item = None) items ->
  forall acc t f, Enumeration.enrichLoop items acc t f = None.
Proof.
  induction 1 as [item rest Hitem|item rest _ IH]; intros acc t f; simpl.
  - unfold Enumeration.enrichItem. rewrite Hitem.
    by destruct (Reconciler.reconcile _ _).
  - destruct (Enumeration.enrichItem item) as [[e c]|]; [apply IH|done].
Qed.

Lemma mapCarts_orphan (save : Enumeration.SaveOutcome) (cs : list Cart.t) :
  Exists (fun cart =>
            Exists (fun item => CartItem.product item = None)
              (Cart.items cart)) cs ->
  forall fx, fst (Enumeration.mapCarts save cs fx) = None.
Proof.
  induction 1 as [cart rest Hcart|cart rest _ IH]; intros fx; simpl.
  - unfold Enumeration.processCart. by rewrite enrichLoop_orphan.
  - destruct (Enumeration.processCart save cart fx) as [[lc|] g]; [|done].
    specialize (IH g).
    by destruct (Enumeration.mapCarts save rest g) as [[l|] h]; simpl in *.
Qed.

(** X25.  The enumeration fails exactly when some line of some cart has
    lost its product ([item.product] is [null]); [getCartsByUser] and
    [getCartsSummary] then answer 500 with their own message, whatever the
    user asked for. *)
Theorem enumeration_fails_on_orphan_line
    (save : Enumeration.SaveOutcome) (cs : list Cart.t) :
  (fst (Enumeration.getAllCartsData save cs) = None
   <-> Exists (fun cart =>
                 Exists (fun item => CartItem.product item = None)
                   (Cart.items cart)) cs)
  /\ (fst (Enumeration.getAllCartsData save cs) = None ->
      forall divide userId,
        fst (Views.getCartsByUser divide "admin" userId save cs)
        = Fail (Some 500%Z) "Error fetching user carts"
        /\ fst (Views.getCartsSummary divide "admin" save cs)
           = Fail (Some 500%Z) "Error fetching carts summary").
Proof.
  split.
  - split.
    + intros Hnone. destruct (carts_populated_or_orphan cs) as [Hall|Hex];
        [|done].
      destruct (mapCarts_returns save cs Enumeration.noFx Hall) as [lcs Hl].
      unfold Enumeration.getAllCartsData in Hnone.
      by destruct (Enumeration.mapCarts save cs _) as [[l|] h]; simpl in *.
    + intros Hex. unfold Enumeration.getAllCartsData.
      pose proof (mapCarts_orphan save cs Hex Enumeration.noFx) as H.
      by destruct (Enumeration.mapCarts save cs _) as [[l|] h]; simpl in *.
  - intros Hnone divide userId.
    unfold Views.getCartsByUser, Views.getCartsSummary.
    simpl.
    by destruct (Enumeration.getAllCartsData save cs) as [[data|] fx];
      simpl in *.
Qed.

Lemma enumeration_fails_on_orphan_line_witness :
  fst (Views.getCartsByUser Fixtures.exactDivide "admin" "u1" Sample.saveOk
         [Sample.cart; Sample.orphanCart])
  = Fail (Some 500%Z) "Error fetching user carts".
Proof.
  destruct (enumeration_fails_on_orphan_line Sample.saveOk
              [Sample.cart; Sample.orphanCart]) as [Hiff Hviews].
  apply Hviews. apply Hiff.
  apply Exists_cons_tl, Exists_cons_hd, Exists_cons_hd. reflexivity.
Defined.

(** ** The three most valuable carts *)

Lemma insertByTotal_perm (cart : Enumeration.LocalizedCart)
    (sorted : list Enumeration.LocalizedCart) :
  Views.insertByTotal cart sorted ≡ₚ cart :: sorted.
Proof.
  induction sorted as [|next rest IH]; simpl; [done|].
  destruct (Qle_bool _ _); [done|]. by rewrite IH, Permutation_swap.
Qed.

Lemma sortByTotal_perm (cs : list Enumeration.LocalizedCart) :
  Views.sortByTotal cs ≡ₚ cs.
Proof.
  induction cs as [|cart rest IH]; simpl; [done|].
  by rewrite insertByTotal_perm, IH.
Qed.

Lemma insertByTotal_sorted (cart : Enumeration.LocalizedCart)
    (sorted : list Enumeration.LocalizedCart) :
  StronglySorted (fun a b => Enumeration.cartTotalPrice b
                             <= Enumeration.cartTotalPrice a) sorted ->
  StronglySorted (fun a b => Enumeration.cartTotalPrice b
                             <= Enumeration.cartTotalPrice a)
    (Views.insertByTotal cart sorted).
Proof.
  induction 1 as [|next rest Hrest IH Hnext]; simpl.
  - repeat constructor.
  - destruct (Qle_bool _ _) eqn:Hle.
    + apply Qle_bool_iff in Hle. constructor; [by constructor|].
      constructor; [done|]. eapply Forall_impl; [exact Hnext|].
      intros c Hc. simpl in Hc. by apply (Qle_trans _ _ _ Hc).
    + constructor; [done|]. rewrite insertByTotal_perm.
      constructor; [|done].
      destruct (Qlt_le_dec (Enumeration.cartTotalPrice cart)
                  (Enumeration.cartTotalPrice next)) as [Hlt|Hge].
      * by apply Qlt_le_weak.
      * apply Qle_bool_iff in Hge. congruence.
Qed.

Lemma sortByTotal_sorted (cs : list Enumeration.LocalizedCart) :
  StronglySorted (fun a b => Enumeration.cartTotalPrice b
                             <= Enumeration.cartTotalPrice a)
    (Views.sortByTotal cs).
Proof.
  induction cs as [|cart rest IH]; simpl; [constructor|].
  by apply insertByTotal_sorted.
Qed.

(** X26.  The top carts of [getCartsSummary] are the three most valuable
    ones: they are taken from the enumerated carts (three of them, or all
    when there are fewer), listed from the highest total price down, and no
    cart left out has a higher total than a cart listed.  The recent carts
    are the first five in query order, untouched by the sorting. *)
Theorem top_carts_most_valuable
    (divide : Q -> nat -> Q) (role : string) (save : Enumeration.SaveOutcome)
    (cs : list Cart.t) (code : Z) (view : Views.SummaryView)
    (fx : Enumeration.Effects) :
  Views.getCartsSummary divide role save cs = (Respond code view, fx) ->
  exists data others,
    Enumeration.getAllCartsData save cs = (Some data, fx)
    /\ Views.topCarts view ++ others ≡ₚ Enumeration.carts data
    /\ length (Views.topCarts view)
       = Nat.min 3 (length (Enumeration.carts data))
    /\ StronglySorted (fun a b => Enumeration.cartTotalPrice b
                                  <= Enumeration.cartTotalPrice a)
         (Views.topCarts view)
    /\ (forall top other,
          top ∈ Views.topCarts view -> other ∈ others ->
          Enumeration.cartTotalPrice other <= Enumeration.cartTotalPrice top)
    /\ Views.recentCarts view = take 5 (Enumeration.carts data)
    /\ Views.summaryTotalCarts view = length (Enumeration.carts data).
Proof.
  unfold Views.getCartsSummary. destruct (negb _); [done|].
  destruct (Enumeration.getAllCartsData save cs) as [[data|] fx']; [|done].
  intros [= _ <- <-]. simpl.
  exists data, (drop 3 (Views.sortByTotal (Enumeration.carts data))).
  pose proof (sortByTotal_sorted (Enumeration.carts data)) as Hsorted.
  rewrite <- (take_drop 3 (Views.sortByTotal (Enumeration.carts data)))
    in Hsorted.
  apply StronglySorted_app in Hsorted as (Hcross & Htop & _).
  split; [done|]. split; [by rewrite take_drop, sortByTotal_perm|].
  split.
  { rewrite length_take. by rewrite (Permutation_length (sortByTotal_perm _)). }
  split; [done|]. split; [|done].
  intros top other Htopin Hother. by apply Hcross.
Qed.

Lemma top_carts_most_valuable_witness :
  match fst (Views.getCartsSummary Fixtures.exactDivide "admin" Sample.saveOk
               [Fixtures.unpricedCart; Sample.cart]) with
  | Respond _ view =>
      StronglySorted (fun a b => Enumeration.cartTotalPrice b
                                 <= Enumeration.cartTotalPrice a)
        (Views.topCarts view)
  | Fail _ _ => False
  end.
Proof.
  destruct (Views.getCartsSummary Fixtures.exactDivide "admin" Sample.saveOk
              [Fixtures.unpricedCart; Sample.cart])
    as [[code view|? ?] fx] eqn:Hrun; [|vm_compute in Hrun; discriminate Hrun].
  destruct (top_carts_most_valuable _ _ _ _ _ _ _ Hrun)
    as (data & others & _ & _ & _ & Hsorted & _).
  exact Hsorted.
Defined.

(** With totals 130 and 150 in query order, the sort brings the cart
    worth 150 to the front. *)
Example top_carts_sample :
  match fst (Views.getCartsSummary Fixtures.exactDivide "admin" Sample.saveOk
               [Sample.cart; Fixtures.unpricedCart]) with
  | Respond _ view => Enumeration.cartId <$> Views.topCarts view = ["c4"; "c1"]
  | Fail _ _ => False
  end.
Proof. vm_compute. done. Qed.

(** * Properties of the page helpers *)

Lemma orStr_nonempty (a : option string) (b : string) :
  b <> "" -> Page.orStr a b <> "".
Proof.
  intros Hb. destruct a as [s|]; simpl; [|done].
  destruct (String.eqb_spec s ""); done.
Qed.

Lemma orStr_truthy (a : option string) (b s : string) :
  a = Some s -> s <> "" -> Page.orStr a b = s.
Proof.
  intros -> Hs. simpl. by destruct (String.eqb_spec s "").
Qed.

Lemma orStr_falsy (a : option string) (b : string) :
  Checkout.truthyStr a = false -> Page.orStr a b = b.
Proof.
  destruct a as [s|]; simpl; [|done]. intros Hs.
  apply negb_false_iff in Hs. by rewrite Hs.
Qed.

(** X27.  [getLocalizedText] follows a fixed chain: the text in the
    requested language if it is there and not empty, else the English
    text, else the Arabic text, else the fallback; a plain string is
    returned as it is.  With a non-empty fallback the result is never
    empty. *)
Theorem localized_text_chain :
  (forall text lang fallback,
     fallback <> "" -> Page.getLocalizedText text lang fallback <> "")
  /\ (forall s lang fallback,
        s <> "" -> Page.getLocalizedText (Page.Plain s) lang fallback = s)
  /\ (forall en ar lang fallback s,
        Page.field en ar lang = Some s -> s <> "" ->
        Page.getLocalizedText (Page.Bilingual en ar) lang fallback = s)
  /\ (forall en ar lang fallback s,
        Checkout.truthyStr (Page.field en ar lang) = false ->
        en = Some s -> s <> "" ->
        Page.getLocalizedText (Page.Bilingual en ar) lang fallback = s)
  /\ (forall en ar lang fallback s,
        Checkout.truthyStr (Page.field en ar lang) = false ->
        Checkout.truthyStr en = false ->
        ar = Some s -> s <> "" ->
        Page.getLocalizedText (Page.Bilingual en ar) lang fallback = s)
  /\ (forall en ar lang fallback,
        Checkout.truthyStr en = false -> Checkout.truthyStr ar = false ->
        Page.getLocalizedText (Page.Bilingual en ar) lang fallback = fallback).
Proof.
  assert (forall s, s <> "" -> Checkout.truthyStr (Some s) = true) as Htruthy.
  { intros s Hs. simpl. by destruct (String.eqb_spec s ""). }
  split; [|split; [|split; [|split; [|split]]]].
  - intros text lang fallback Hfb. destruct text as [|s|en ar]; simpl.
    + done.
    + by destruct (String.eqb_spec s "").
    + destruct (_ || _); [|done]. by do 3 apply orStr_nonempty.
  - intros s lang fallback Hs. simpl. by destruct (String.eqb_spec s "").
  - intros en ar lang fallback s Hfield Hs. simpl.
    assert (Checkout.truthyStr en || Checkout.truthyStr ar = true) as ->.
    { unfold Page.field in Hfield.
      destruct (String.eqb lang "en"); [subst en; by rewrite Htruthy|].
      destruct (String.eqb lang "ar"); [|done].
      subst ar. rewrite Htruthy by done. apply orb_true_r. }
    by apply orStr_truthy.
  - intros en ar lang fallback s Hfield -> Hs. unfold Page.getLocalizedText.
    rewrite Htruthy by done. rewrite orb_true_l, orStr_falsy by done.
    by apply orStr_truthy.
  - intros en ar lang fallback s Hfield Hen -> Hs. unfold Page.getLocalizedText.
    rewrite Hen, Htruthy by done. rewrite orb_true_r.
    rewrite !orStr_falsy by done. by apply orStr_truthy.
  - intros en ar lang fallback Hen Har. simpl. by rewrite Hen, Har.
Qed.

Lemma localized_text_chain_witness :
  Page.getLocalizedText (Page.Bilingual (Some "Phone") (Some "")) "ar" "N/A"
  = "Phone".
Proof.
  destruct localized_text_chain as (_ & _ & _ & Hen & _).
  by apply (Hen (Some "Phone") (Some "") "ar" "N/A" "Phone").
Defined.

(** X28.  A quantity change never asks for less than one unit: the
    request, when there is one, is for the product clicked and for the
    line's quantity plus the change, raised to 1 if it is lower; when the
    product is not among the lines shown nothing is sent. *)
Theorem quantity_change_at_least_one
    (items : list Page.Shown) (productId : string) (change : Z) :
  match Page.handleQuantityChange items productId change with
  | Some (target, newQuantity) =>
      target = productId /\ (1 <= newQuantity)%Z
      /\ exists item,
           item ∈ items /\ Page.shownProductId item = productId
           /\ newQuantity = Z.max 1 (Page.shownQuantity item + change)
  | None => Forall (fun item => Page.shownProductId item <> productId) items
  end.
Proof.
  unfold Page.handleQuantityChange.
  pose proof (find_first (fun i => String.eqb (Page.shownProductId i) productId)
                items) as Hfind.
  destruct (List.find _ items) as [item|].
  - destruct Hfind as (before & after & -> & Hid & _).
    split; [done|]. split; [lia|]. exists item.
    split; [set_solver|]. split; [by apply String.eqb_eq|done].
  - eapply Forall_impl; [exact Hfind|]. intros item Hitem.
    by apply String.eqb_neq.
Qed.

Lemma orNum_again (a : option Q) :
  Js.orNum (Some (Js.orNum a 0)) 0 = Js.orNum a 0.
Proof.
  destruct a as [x|]; simpl; [|done].
  destruct (Js.isZero x) eqn:Hx; [done|]. by rewrite Hx.
Qed.

Lemma orStr_again (a : option string) (b : string) :
  b <> "" -> Page.orStr (Some (Page.orStr a b)) b = Page.orStr a b.
Proof.
  intros Hb. apply orStr_truthy; [done|]. by apply orStr_nonempty.
Qed.

Lemma sku_fallback_nonempty (product : string) : "SKU-" +:+ product <> "".
Proof. done. Qed.

(** X29.  What the cart editor sends is normalised: a save is sent only
    when the edited cart has an identifier, and then every line of the
    update keeps its product and has a quantity of at least 1, a numeric
    price and a non-empty SKU.  The normalisation is idempotent, and a line
    built by the save button passes through it unchanged. *)
Theorem saved_cart_normalised :
  (forall editingCartId items cartId drafts,
     Page.handleSaveCart editingCartId items = Page.Mutate (cartId, drafts) ->
     editingCartId = Some cartId /\ cartId <> ""
     /\ Forall2 (fun item draft =>
                   Page.draftProduct draft = Page.draftProduct item
                   /\ (1 <= Page.draftQuantity draft)%Z
                   /\ is_Some (Page.draftPrice draft)
                   /\ exists s, Page.draftSku draft = Some s /\ s <> "")
          items drafts)
  /\ (forall draft, Page.validated (Page.validated draft) = Page.validated draft)
  /\ (forall item, Page.validated (Page.fromEdited item) = Page.fromEdited item).
Proof.
  split; [|split].
  - intros editing items cartId drafts. unfold Page.handleSaveCart.
    destruct editing as [id|]; [|done].
    destruct (String.eqb_spec id "") as [|Hid]; [done|].
    intros [= <- <-]. split; [done|]. split; [done|].
    induction items as [|item rest IH]; csimpl; constructor; [|done].
    unfold Page.validated. simpl.
    split; [done|]. split; [lia|]. split; [by eexists|].
    eexists. split; [done|]. apply orStr_nonempty, sku_fallback_nonempty.
  - intros [product quantity price sku notes]. unfold Page.validated.
    cbn [Page.draftProduct Page.draftQuantity Page.draftPrice Page.draftSku
         Page.draftNotes].
    rewrite orNum_again, orStr_again by apply sku_fallback_nonempty.
    f_equal; [lia|]. destruct (Checkout.truthyStr notes) eqn:Hn; [|done].
    by rewrite Hn.
  - intros [productId quantity price basePrice sku].
    unfold Page.validated, Page.fromEdited.
    cbn [Page.draftProduct Page.draftQuantity Page.draftPrice Page.draftSku
         Page.draftNotes Page.productId Page.quantity Page.price
         Page.basePrice Page.sku].
    rewrite orNum_again, orStr_again by apply sku_fallback_nonempty.
    f_equal. lia.
Qed.

Lemma saved_cart_normalised_witness :
  Some "c1" = Some "c1" /\ "c1" <> ""
  /\ Forall2 (fun item draft =>
                Page.draftProduct draft = Page.draftProduct item
                /\ (1 <= Page.draftQuantity draft)%Z
                /\ is_Some (Page.draftPrice draft)
                /\ exists s, Page.draftSku draft = Some s /\ s <> "")
       [Page.mkDraft "p1" 0 None (Some "") None]
       [Page.mkDraft "p1" 1 (Some 0) (Some "SKU-p1") None].
Proof.
  destruct saved_cart_normalised as (Hsent & _).
  exact (Hsent (Some "c1") [Page.mkDraft "p1" 0 None (Some "") None] "c1"
           [Page.mkDraft "p1" 1 (Some 0) (Some "SKU-p1") None] eq_refl).
Defined.

(** * The variant shown with an enriched item *)

Lemma scan_group (variants : list Variant.t) (sku : string)
    (v : Variant.t) (opt : Opt.t) :
  Resolver.scan variants sku = Some (v, opt) ->
  v ∈ variants /\ Resolver.findOption (Variant.options v) sku = Some opt.
Proof.
  induction variants as [|w rest IH]; simpl; [done|].
  destruct (Resolver.findOption (Variant.options w) sku) as [found|] eqn:Hw.
  - intros [= <- <-]. split; [by left|done].
  - intros Hrest. destruct (IH Hrest) as [Hin Hfound]. split; [by right|done].
Qed.

(** X30.  The variant information of an enriched item belongs together:
    when a variant type is shown it is the name of a variant group of the
    item's product in which the item's SKU was found, and the label and
    the stock shown are those of the option found there; when no type is
    shown the SKU did not resolve and label and stock are missing too. *)
Theorem enriched_variant_is_matching_group
    (item : CartItem.t) (e : Enumeration.EnrichedItem) (corrected : bool) :
  Enumeration.enrichItem item = Some (e, corrected) ->
  match Enumeration.type e with
  | Some name =>
      exists v opt,
        v ∈ Resolver.variantsOf (CartItem.product item)
        /\ Variant.name v = name
        /\ Resolver.findOption (Variant.options v) (CartItem.sku item)
           = Some opt
        /\ Opt.sku opt = CartItem.sku item
        /\ Enumeration.label e = Opt.value opt
        /\ Enumeration.stock e = Opt.stock opt
  | None =>
      Resolver.matchedOption (CartItem.product item) (CartItem.sku item) = None
      /\ Enumeration.label e = None /\ Enumeration.stock e = None
  end.
Proof.
  unfold Enumeration.enrichItem, Resolver.matchedOption.
  destruct (Reconciler.reconcile _ _) as [price flag].
  destruct (CartItem.product item) as [p|] eqn:Hp; [|done].
  intros [= <- _]. simpl.
  destruct (Resolver.resolve (Some p) (CartItem.sku item)) as [[v opt]|]
    eqn:Hres; simpl; [|done].
  destruct (scan_group _ _ _ _ Hres) as [Hin Hfound].
  exists v, opt. repeat split; try done.
  unfold Resolver.findOption in Hfound.
  destruct (Variant.options v) as [opts|]; [|done].
  apply find_some in Hfound as [_ Heq]. by apply String.eqb_eq.
Qed.

Lemma enriched_variant_is_matching_group_witness :
  Enumeration.type <$> (fst <$> Enumeration.enrichItem Sample.itemA1)
  = Some (Some "Storage").
Proof.
  destruct (Enumeration.enrichItem Sample.itemA1) as [[e c]|] eqn:He;
    [|vm_compute in He; discriminate He].
  pose proof (enriched_variant_is_matching_group Sample.itemA1 e c He) as Hv.
  simpl. destruct (Enumeration.type e) as [name|] eqn:Ht.
  - destruct Hv as (v & opt & Hin & <- & Hfound & _).
    apply elem_of_cons in Hin as [->|Hin]; [done|].
    apply elem_of_cons in Hin as [->|Hin]; [|by apply elem_of_nil in Hin].
    vm_compute in He. injection He as <- _. discriminate Ht.
  - destruct Hv as (Hnone & _). vm_compute in Hnone. discriminate Hnone.
Defined.
